(** * setuptools [editable_wheel]: the PEP 660 editable-wheel command

    A shallow embedding of [setuptools/command/editable_wheel.py] and the
    properties its specification states about it.

    Conventions of the embedding.
    - A Python [str] is a [string]; text is kept in its UTF-8 form, so
      [write_text(..., encoding="utf-8")] stores the string as it is.  A
      text that UTF-8 cannot encode (a lone surrogate, as undecodable file
      names give) is a string for which the environment answers an error
      when it is written.
    - A [pathlib.Path] is the list of its parts, as [PurePath.parts] shows
      them: the root, when there is one, is the first part.  Path syntax is
      the POSIX flavour ([PurePosixPath], [posixpath]), which Cygwin shares.
    - The file system is a finite map from paths to nodes.  The working
      directory does not change during a build, so a relative path is a key
      of its own; symbolic links and [..] are not interpreted by the map.
      Permissions are not in the map: that the operating system refuses to
      remove a file is an answer of the environment.
    - A method is a computation in a state-and-exception monad over the
      file system.  The state also carries a history of the calls made to
      the outside (the collaborating commands, the temporary directory):
      the program never reads it; properties of the form "the collaborator
      is called with ..." are stated on it.
    - The other commands of the distribution ([dist_info], [bdist_wheel],
      [build_ext]), [wheel.wheelfile.WheelFile] and
      [setuptools.namespaces.Installer] are parameters: any function on the
      file system that returns or raises. *)

From Stdlib Require Import Ascii String.
From stdpp Require Import gmap strings list fin_maps.

Open Scope string_scope.
Open Scope list_scope.

(** ** Strings *)

Module Str.

(** [s.startswith(pre)] *)
Fixpoint startswith (s pre : string) {struct pre} : bool :=
  match pre, s with
  | EmptyString, _ => true
  | String a pre', String b s' => Ascii.eqb b a && startswith s' pre'
  | String _ _, EmptyString => false
  end.

(** [s.endswith(suf)]: some tail of [s] is [suf]. *)
Fixpoint endswith (s suf : string) : bool :=
  String.eqb s suf ||
  match s with
  | EmptyString => false
  | String _ s' => endswith s' suf
  end.

(** [sep in s] for the separator ["/"]. *)
Fixpoint has_sep (s : string) : bool :=
  match s with
  | EmptyString => false
  | String c s' => Ascii.eqb c "/"%char || has_sep s'
  end.

(** [s.split("/")] *)
Fixpoint split_sep (s : string) : list string :=
  match s with
  | EmptyString => [EmptyString]
  | String c s' =>
      if Ascii.eqb c "/"%char then EmptyString :: split_sep s'
      else match split_sep s' with
           | h :: t => String c h :: t
           | [] => [String c EmptyString]
           end
  end.

(** [s.lstrip("/")] *)
Fixpoint lstrip_sep (s : string) : string :=
  match s with
  | EmptyString => EmptyString
  | String c s' => if Ascii.eqb c "/"%char then lstrip_sep s' else s
  end.

(** [sep.join(l)] *)
Definition join (sep : string) (l : list string) : string := String.concat sep l.


(** [o or d] on an optional string. *)
Definition or_else (o : option string) (d : string) : string :=
  match o with
  | Some s => if String.eqb s "" then d else s
  | None => d
  end.

Definition is_digit (c : ascii) : bool :=
  let n := Ascii.nat_of_ascii c in (48 <=? n)%nat && (n <=? 57)%nat.

(** [s[:1].isdigit()] *)
Definition starts_with_digit (s : string) : bool :=
  match s with
  | String c _ => is_digit c
  | EmptyString => false
  end.

End Str.

(** ** Paths: [pathlib] (POSIX flavour) and [posixpath] *)

Abbreviation path := (list string) (only parsing).

Module PosixPath.

Definition is_root (s : string) : bool := String.eqb s "/" || String.eqb s "//".

Definition is_absolute (p : path) : bool :=
  match p with
  | r :: _ => is_root r
  | [] => false
  end.

(** [_PosixFlavour.splitroot]: the root (["/"], ["//"] for exactly two
    leading slashes, or none) and the rest. *)
Definition splitroot (part : string) : string * string :=
  if Str.startswith part "/" then
    let stripped := Str.lstrip_sep part in
    if (String.length part - String.length stripped =? 2)%nat
    then ("//", stripped) else ("/", stripped)
  else ("", part).

(** The parts one argument contributes: its root, then the components of
    the rest that are neither empty nor ["."]. *)
Definition parse_one (part : string) : path :=
  let '(root, rel) := splitroot part in
  (if String.eqb root "" then [] else [root]) ++
  filter (λ x, x ≠ "" ∧ x ≠ ".") (Str.split_sep rel).

(** [_Flavour.parse_parts]: the arguments are read from the last one
    backwards, and the reading stops at the first one that has a root. *)
Fixpoint parse_parts (args : list string) : path :=
  match args with
  | [] => []
  | a :: rest =>
      let r := parse_parts rest in
      if is_absolute r then r else parse_one a ++ r
  end.

(** [Path(a, b, ...)] for string arguments. *)
Definition Path (args : list string) : path := parse_parts args.

(** [Path(p, a, ...)] where [p] is itself a path object: its parts come
    first in the argument list. *)
Definition Path_of (p : path) (args : list string) : path := parse_parts (p ++ args).

(** [PurePath.name] *)
Definition name (p : path) : string :=
  match p with
  | [] => ""
  | [r] => if is_root r then "" else r
  | _ => List.last p ""
  end.

(** [PurePath.parent] *)
Definition parent (p : path) : path :=
  match p with
  | [r] => if is_root r then p else []
  | _ => List.removelast p
  end.

(** [str(p)] *)
Definition to_str (p : path) : string :=
  match p with
  | [] => "."
  | r :: t => if is_root r then r +:+ Str.join "/" t else Str.join "/" p
  end.

(** [posixpath.join(a, b)] *)
Definition os_path_join (a b : string) : string :=
  if Str.startswith b "/" then b
  else if String.eqb a "" || Str.endswith a "/" then a +:+ b
  else a +:+ "/" +:+ b.


End PosixPath.
Import PosixPath.

(** ** The file system *)

Inductive node : Type :=
| File (content : string)
| Dir.

Module FS.

(** The working directory and the roots are always there. *)
Definition is_anchor (p : path) : bool :=
  match p with
  | [] => true
  | [r] => is_root r
  | _ => false
  end.

Definition stat (f : gmap path node) (p : path) : option node :=
  if is_anchor p then Some Dir else f !! p.

(** [os.path.exists], [Path.exists] *)
Definition exists_ (f : gmap path node) (p : path) : bool :=
  match stat f p with
  | Some _ => true
  | None => false
  end.

(** [Path.is_dir] *)
Definition is_dir (f : gmap path node) (p : path) : bool :=
  match stat f p with
  | Some Dir => true
  | _ => false
  end.

(** [Path.is_file] *)
Definition is_file (f : gmap path node) (p : path) : bool :=
  match stat f p with
  | Some (File _) => true
  | _ => false
  end.

(** What is left when [d] and everything below it is removed. *)
Definition remove_tree (d : path) (f : gmap path node) : gmap path node :=
  filter (λ kv, ¬ d `prefix_of` kv.1) f.

(** The entries strictly below [src], moved below [dst]. *)
Definition relocate (src dst : path) (kv : path * node) : option (path * node) :=
  if bool_decide (src `prefix_of` kv.1) then
    match drop (length src) kv.1 with
    | [] => None
    | rel => Some (dst ++ rel, kv.2)
    end
  else None.

Definition copied_entries (src dst : path) (f : gmap path node) : gmap path node :=
  list_to_map (omap (relocate src dst) (map_to_list f)).

End FS.

(** ** Computations: state, exceptions, and the history of outward calls *)

Inductive exn : Type :=
| AssertionError
| TypeError
| FileNotFoundError
| FileExistsError
| IsADirectoryError
| NotADirectoryError
| PermissionError
| UnicodeEncodeError
| ExternalError (msg : string).

Inductive outcome (A : Type) : Type :=
| Return (a : A)
| Raise (e : exn).
Arguments Return {A} a.
Arguments Raise {A} e.

(** The calls a build makes to the outside.  [EvWriteFiles] keeps the file
    system as the archive writer finds it. *)
Inductive event : Type :=
| EvDistInfo (output_dir : path)
| EvWriteWheelfile (dist_info_dir : string)
| EvBuildExt (inplace : bool)
| EvMkdtemp (tmp : string)
| EvInstallNamespaces (nsp : list string) (target root : string)
| EvWriteFiles (wheel_path : path) (base_dir : string) (found : gmap path node).

Record world : Type := World {
  fs : gmap path node;
  history : list event
}.

Definition M (A : Type) : Type := world → world * outcome A.

(** What a collaborator is: it works on the file system, and returns or raises. *)
Definition ext (A : Type) : Type := gmap path node → gmap path node * outcome A.

Definition ret {A : Type} (a : A) : M A := λ w, (w, Return a).

Definition raise {A : Type} (e : exn) : M A := λ w, (w, Raise e).

Definition bind {A B : Type} (c : M A) (k : A → M B) : M B :=
  λ w, match c w with
       | (w', Return a) => k a w'
       | (w', Raise e) => (w', Raise e)
       end.

Notation "'let*' x ':=' c 'in' k" := (bind c (λ x, k))
  (at level 10, x name, c at level 100, k at level 200).
Notation "c ';;' k" := (bind c (λ _, k))
  (at level 100, k at level 200, right associativity).

(** [try: c finally: h] *)
Definition finally {A : Type} (c : M A) (h : M unit) : M A :=
  λ w, let '(w1, r) := c w in
       match h w1 with
       | (w2, Return _) => (w2, r)
       | (w2, Raise e) => (w2, Raise e)
       end.

(** [try: c except e: ...]: the outcome of [c] as a value. *)
Definition attempt {A : Type} (c : M A) : M (outcome A) :=
  λ w, let '(w', r) := c w in (w', Return r).

(** A line of the history. *)
Definition note (ev : event) : M unit :=
  λ w, (World (fs w) (history w ++ [ev]), Return tt).

(** A call to a collaborator, noted with the file system it finds. *)
Definition call {A : Type} (ev : gmap path node → event) (c : ext A) : M A :=
  λ w, let '(f', r) := c (fs w) in
       (World f' (history w ++ [ev (fs w)]), r).

(** A read of the file system. *)
Definition look {A : Type} (q : gmap path node → A) : M A := λ w, (w, Return (q (fs w))).

(** A change of the file system. *)
Definition change (g : gmap path node → gmap path node) : M unit :=
  λ w, (World (g (fs w)) (history w), Return tt).

(** ** The interpreter and the operating system *)

(** [sys.platform], the [os.path] functions that look at the working
    directory, the links and the platform, [repr] on strings, and what
    [tempfile] draws from.  Two answers of the operating system that the
    map of the file system does not determine: [unlink_error p] is the
    error of removing the file [p] when the removal is refused
    ([PermissionError] in a directory that cannot be written), the file
    staying where it is; [write_error data] is the error of writing the
    text [data] to a file that has been opened ([UnicodeEncodeError] when
    the text cannot be encoded). *)
Record Env : Type := {
  sys_platform : string;
  os_path_abspath : string → string;
  os_path_realpath : string → string;
  os_path_normpath : string → string;
  os_path_normcase : string → string;
  repr : string → string;
  gettempdir : string;
  candidate_names : list string;
  unlink_error : path → option exn;
  write_error : string → option exn
}.

(** ** [os], [pathlib], [shutil] and [tempfile] on the file system *)

Module Os.

(** The error of a lookup that cannot reach its end.  The path is walked
    from its first part, [seen] being the part walked so far: the first
    part that is not a directory decides, [NotADirectoryError] when a file
    is there and [FileNotFoundError] when nothing is. *)
Fixpoint walk_error (f : gmap path node) (seen rest : path) : exn :=
  match rest with
  | [] => FileNotFoundError
  | c :: rest' =>
      match FS.stat f (seen ++ [c]) with
      | Some Dir => walk_error f (seen ++ [c]) rest'
      | Some (File _) => NotADirectoryError
      | None => FileNotFoundError
      end
  end.

Definition lookup_error (f : gmap path node) (p : path) : exn := walk_error f [] p.

(** [os.mkdir(p)] *)
Definition mkdir (p : path) : M unit :=
  let* par := look (λ f, FS.stat f (parent p)) in
  match par with
  | Some Dir =>
      let* ex := look (λ f, FS.exists_ f p) in
      if ex then raise FileExistsError else change (insert p Dir)
  | _ =>
      let* e := look (λ f, lookup_error f (parent p)) in
      raise e
  end.


(** [Path.exists()] *)
Definition Path_exists (p : path) : M bool := look (λ f, FS.exists_ f p).

(** [Path.unlink()]: a file is removed, unless the operating system
    refuses; then the error is raised and the file stays. *)
Definition Path_unlink (E : Env) (p : path) : M unit :=
  let* st := look (λ f, FS.stat f p) in
  match st with
  | None =>
      let* e := look (λ f, lookup_error f p) in
      raise e
  | Some Dir => raise IsADirectoryError
  | Some (File _) =>
      match unlink_error E p with
      | Some e => raise e
      | None => change (delete p)
      end
  end.

(** [Path.write_text(data, encoding="utf-8")]: the file is opened for
    writing, which makes it or empties it, and then the text is written;
    when the writing fails, the file stays, empty. *)
Definition Path_write_text (E : Env) (p : path) (data : string) : M unit :=
  let* par := look (λ f, FS.stat f (parent p)) in
  match par with
  | Some Dir =>
      let* d := look (λ f, FS.is_dir f p) in
      if d then raise IsADirectoryError
      else
        change (insert p (File EmptyString)) ;;
        match write_error E data with
        | Some e => raise e
        | None => change (insert p (File data))
        end
  | _ =>
      let* e := look (λ f, lookup_error f (parent p)) in
      raise e
  end.

(** [os.makedirs(p)] ([exist_ok] is false), on the reversed parts of [p]:
    a missing head is made first, then [p] itself. *)
Fixpoint makedirs_rev (rp : list string) : M unit :=
  match rp with
  | [] => mkdir []
  | _ :: rhead =>
      let head := rev rhead in
      let* ex := look (λ f, FS.exists_ f head) in
      (if ex then ret tt
       else let* r := attempt (makedirs_rev rhead) in
            match r with
            | Return _ => ret tt
            | Raise FileExistsError => ret tt
            | Raise e => raise e
            end) ;;
      mkdir (rev rp)
  end.

Definition makedirs (p : path) : M unit := makedirs_rev (rev p).

(** [shutil.copytree(src, dst)]: [src] is listed, [dst] is made (it must
    not exist), and the entries below [src] are copied below [dst]. *)
Definition copytree (src dst : path) : M unit :=
  let* st := look (λ f, FS.stat f src) in
  match st with
  | None =>
      let* e := look (λ f, lookup_error f src) in
      raise e
  | Some (File _) => raise NotADirectoryError
  | Some Dir =>
      let* found := look (λ f, f) in
      makedirs dst ;;
      change (λ f, FS.copied_entries src dst found ∪ f)
  end.

(** [shutil.rmtree(p)] as [TemporaryDirectory.cleanup] calls it: a missing
    directory is not an error.  Failures of the removal itself (permissions)
    are outside the model. *)
Definition rmtree (p : path) : M unit := change (FS.remove_tree p).

(** [tempfile.mkdtemp(suffix)]: the candidate names are tried in turn; a
    name that is taken is skipped, any other failure is raised, and when no
    name is left the call fails. *)
Fixpoint mkdtemp_loop (dir suffix : string) (names : list string) : M string :=
  match names with
  | [] => raise FileExistsError
  | n :: rest =>
      let file := os_path_join dir ("tmp" +:+ n +:+ suffix) in
      let* r := attempt (mkdir (Path [file])) in
      match r with
      | Return _ => note (EvMkdtemp file) ;; ret file
      | Raise FileExistsError => mkdtemp_loop dir suffix rest
      | Raise e => raise e
      end
  end.

(** [with TemporaryDirectory(suffix=suffix) as tmp: body] *)
Definition with_TemporaryDirectory {A : Type} (dir : string) (names : list string)
    (suffix : string) (body : string → M A) : M A :=
  let* tmp := mkdtemp_loop dir suffix names in
  finally (body tmp) (rmtree (Path [tmp])).

End Os.

(** ** What the command is given *)

(** The collaborators: the [dist_info] command ([name] once finalized; the
    run into an output directory, which gives the directory it wrote), the
    [bdist_wheel] command ([get_tag], [write_wheelfile]), the [build_ext]
    command, [namespaces.Installer.install_namespaces] (it is given the
    namespace packages and what [_get_target] and [_get_root] answer), and
    [WheelFile(wheel_path, "w").write_files(base_dir)]. *)
Record Collaborators : Type := {
  dist_info_name : string;
  dist_info_run : path → ext string;
  bdist_wheel_get_tag : list string;
  bdist_wheel_write_wheelfile : string → ext unit;
  build_ext_run : bool → ext unit;
  Installer_install_namespaces : list string → string → string → ext unit;
  WheelFile_write_files : path → string → ext unit
}.

(** The fields of the distribution the command reads. *)
Record Distribution : Type := {
  src_root : option string;
  package_dir : option (gmap string string);
  namespace_packages : option (list string)
}.


(** The command once finalized. *)
Record editable_wheel : Type := {
  distribution : Distribution;
  dist_dir : path;
  dist_info_dir : option string;
  project_dir : string;
  strict : bool
}.

Definition set_dist_info_dir (self : editable_wheel) (d : string) : editable_wheel :=
  {| distribution := distribution self;
     dist_dir := dist_dir self;
     dist_info_dir := Some d;
     project_dir := project_dir self;
     strict := strict self |}.

Record _NamespaceInstaller : Type := {
  ni_distribution : Distribution;
  ni_src_root : string;
  ni_installation_dir : string;
  ni_editable_name : string;
  ni_outputs : list string
}.

Definition newline : string := String (Ascii.ascii_of_nat 10) EmptyString.

(** ** The command *)

Section Command.

Variable E : Env.
Variable C : Collaborators.



Definition _normalize_path (filename : string) : string :=
  let file := if String.eqb (sys_platform E) "cygwin"
              then os_path_abspath E filename else filename in
  os_path_normcase E (os_path_realpath E (os_path_normpath E file)).

Definition target (self : editable_wheel) : string :=
  let package_dir := default ∅ (package_dir (distribution self)) in
  _normalize_path (Str.or_else (package_dir !! "") (project_dir self)).

Definition _ensure_dist_info (self : editable_wheel) : M editable_wheel :=
  match dist_info_dir self with
  | None =>
      let* d := call (λ _, EvDistInfo (dist_dir self)) (dist_info_run C (dist_dir self)) in
      ret (set_dist_info_dir self d)
  | Some d =>
      if negb (Str.endswith d ".dist-info") then raise AssertionError
      else
        let* ex := Os.Path_exists (Path [d; "METADATA"]) in
        if ex then ret self else raise AssertionError
  end.

Definition _NamespaceInstaller__init__ (dist : Distribution)
    (installation_dir editable_name src_root : string) : _NamespaceInstaller :=
  {| ni_distribution := dist;
     ni_src_root := src_root;
     ni_installation_dir := installation_dir;
     ni_editable_name := editable_name;
     ni_outputs := [] |}.

(** Installation target. *)
Definition _get_target (self : _NamespaceInstaller) : string :=
  os_path_join (ni_installation_dir self) (ni_editable_name self).

(** Where the modules/packages should be loaded from. *)
Definition _get_root (self : _NamespaceInstaller) : string :=
  repr E (ni_src_root self).

(** The inherited [install_namespaces]: the base class works from the
    namespace packages of the distribution and the two methods above. *)
Definition install_namespaces (self : _NamespaceInstaller) : M unit :=
  let nsp := default [] (namespace_packages (ni_distribution self)) in
  call (λ _, EvInstallNamespaces nsp (_get_target self) (_get_root self))
       (Installer_install_namespaces C nsp (_get_target self) (_get_root self)).

Definition declares_namespaces (dist : Distribution) : bool :=
  match namespace_packages dist with
  | Some (_ :: _) => true
  | _ => false
  end.

Definition _install_namespaces (self : editable_wheel)
    (installation_dir pth_prefix : string) : M unit :=
  let dist := distribution self in
  if negb (declares_namespaces dist) then ret tt
  else
    let installer := _NamespaceInstaller__init__ dist installation_dir pth_prefix (target self) in
    install_namespaces installer.

Definition pth_name (dist_id : string) : string := "__editable__." +:+ dist_id +:+ ".pth".

Definition _populate_wheel (self : editable_wheel) (dist_id unpacked_wheel_dir : string) : M unit :=
  let pth := Path [unpacked_wheel_dir; pth_name dist_id] in
  Os.Path_write_text E pth (target self +:+ newline).

(** According to PEP 427 needs to start with digit *)
Definition build_tag : string := "0.editable".

Definition archive_name : string :=
  let tag := Str.join "-" (bdist_wheel_get_tag C) in
  let editable_name := dist_info_name C in
  editable_name +:+ "-" +:+ build_tag +:+ "-" +:+ tag +:+ ".whl".

Definition wheel_path_of (self : editable_wheel) : path :=
  Path_of (dist_dir self) [archive_name].

Definition _create_wheel_file (self : editable_wheel) : M path :=
  let editable_name := dist_info_name C in
  let wheel_path := wheel_path_of self in
  (let* ex := Os.Path_exists wheel_path in
   if ex then Os.Path_unlink E wheel_path else ret tt) ;;
  Os.with_TemporaryDirectory (gettempdir E) (candidate_names E) archive_name (λ tmp,
    match dist_info_dir self with
    | None => raise TypeError
    | Some d =>
        let tmp_dist_info := Path [tmp; name (Path [d])] in
        Os.copytree (Path [d]) tmp_dist_info ;;
        _install_namespaces self tmp editable_name ;;
        _populate_wheel self editable_name tmp ;;
        call (EvWriteFiles wheel_path tmp) (WheelFile_write_files C wheel_path tmp)
    end) ;;
  ret wheel_path.

(** [run] has no [return]: its value is [None]. *)
Definition run (self : editable_wheel) : M (option path) :=
  let* self := _ensure_dist_info self in
  match dist_info_dir self with
  | None => raise TypeError
  | Some d =>
      (* Add missing dist_info files *)
      call (λ _, EvWriteWheelfile d) (bdist_wheel_write_wheelfile C d) ;;
      (* Build extensions in-place *)
      call (λ _, EvBuildExt true) (build_ext_run C true) ;;
      _create_wheel_file self ;;
      ret None
  end.

End Command.

(** ** A concrete setting

    A POSIX machine without symbolic links, and collaborators that do the
    least their role asks for.  The theorems below hold for every setting;
    this one is where they are run. *)

Module Demo.

Definition dquote : string := String (Ascii.ascii_of_nat 34) EmptyString.
Definition squote : string := "'".
Definition backslash : string := String (Ascii.ascii_of_nat 92) EmptyString.

Fixpoint has_char (c : ascii) (s : string) : bool :=
  match s with
  | EmptyString => false
  | String a s' => Ascii.eqb a c || has_char c s'
  end.

Fixpoint escape (q : ascii) (s : string) : string :=
  match s with
  | EmptyString => EmptyString
  | String a s' =>
      let n := Ascii.nat_of_ascii a in
      (if Ascii.eqb a q || (n =? 92)%nat then backslash +:+ String a EmptyString
       else if (n =? 10)%nat then backslash +:+ "n"
       else if (n =? 13)%nat then backslash +:+ "r"
       else if (n =? 9)%nat then backslash +:+ "t"
       else String a EmptyString) +:+ escape q s'
  end.

(** [repr] of a string of printable ASCII characters, tabs and line ends:
    single quotes, unless the string has a single quote and no double one. *)
Definition repr_ascii (s : string) : string :=
  if has_char "'"%char s && negb (has_char (Ascii.ascii_of_nat 34) s)
  then dquote +:+ escape (Ascii.ascii_of_nat 34) s +:+ dquote
  else squote +:+ escape "'"%char s +:+ squote.

(** The loop of [posixpath.normpath]; [acc] is [new_comps] reversed. *)
Fixpoint normpath_loop (initial_slashes : bool) (comps acc : list string) : list string :=
  match comps with
  | [] => acc
  | comp :: rest =>
      if String.eqb comp "" || String.eqb comp "." then normpath_loop initial_slashes rest acc
      else if negb (String.eqb comp "..")
              || (negb initial_slashes && bool_decide (acc = []))
              || match acc with
                 | last :: _ => String.eqb last ".."
                 | [] => false
                 end
      then normpath_loop initial_slashes rest (comp :: acc)
      else normpath_loop initial_slashes rest (tail acc)
  end.

(** [posixpath.normpath] *)
Definition normpath (p : string) : string :=
  if String.eqb p "" then "."
  else
    let initial_slashes :=
      if Str.startswith p "/" then
        if Str.startswith p "//" && negb (Str.startswith p "///") then "//" else "/"
      else "" in
    let comps := normpath_loop (negb (String.eqb initial_slashes "")) (Str.split_sep p) [] in
    let r := initial_slashes +:+ Str.join "/" (rev comps) in
    if String.eqb r "" then "." else r.

(** [posixpath.abspath] in the working directory [cwd]; without symbolic
    links [posixpath.realpath] is the same function. *)
Definition abspath (cwd p : string) : string := normpath (os_path_join cwd p).

Definition posix (cwd : string) (names : list string) : Env :=
  {| sys_platform := "linux";
     os_path_abspath := abspath cwd;
     os_path_realpath := abspath cwd;
     os_path_normpath := normpath;
     os_path_normcase := λ s, s;
     repr := repr_ascii;
     gettempdir := "/tmp";
     candidate_names := names;
     unlink_error := λ _, None;
     write_error := λ _, None |}.

(** The project [foo] 1.0, pure Python. *)
Definition dist_info_run_foo (output_dir : path) : ext string :=
  λ f, let d := output_dir ++ ["foo-1.0.dist-info"] in
       (<[d ++ ["METADATA"] := File "Name: foo"]> (<[d := Dir]> f), Return (to_str d)).

Definition write_wheelfile_foo (d : string) : ext unit :=
  λ f, (<[Path [d; "WHEEL"] := File "Wheel-Version: 1.0"]> f, Return tt).

Definition install_namespaces_foo (nsp : list string) (target root : string) : ext unit :=
  λ f, (<[Path [target +:+ "-nspkg.pth"] := File root]> f, Return tt).

Definition write_files_foo (wheel_path : path) (base_dir : string) : ext unit :=
  λ f, (<[wheel_path := File ("wheel of " +:+ base_dir)]> f, Return tt).

(** An archive writer that runs out of room: the archive is open at its
    final path, a part is written, and the call raises. *)
Definition write_files_full_disk (wheel_path : path) (base_dir : string) : ext unit :=
  λ f, (<[wheel_path := File "PK (truncated)"]> f, Raise (ExternalError "No space left on device")).

Definition foo (write_files : path → string → ext unit) : Collaborators :=
  {| dist_info_name := "foo-1.0";
     dist_info_run := dist_info_run_foo;
     bdist_wheel_get_tag := ["py3"; "none"; "any"];
     bdist_wheel_write_wheelfile := write_wheelfile_foo;
     build_ext_run := λ _ f, (f, Return tt);
     Installer_install_namespaces := install_namespaces_foo;
     WheelFile_write_files := write_files |}.

Definition E0 : Env := posix "/proj" ["k3x9q2ab"].
Definition C0 : Collaborators := foo write_files_foo.
Definition C_full_disk : Collaborators := foo write_files_full_disk.

Definition dist0 : Distribution :=
  {| src_root := None; package_dir := None; namespace_packages := None |}.

Definition dist_ns : Distribution :=
  {| src_root := None; package_dir := Some {[ "" := "src" ]}; namespace_packages := Some ["ns"] |}.

Definition wheel0 : path := ["dist"; "foo-1.0-0.editable-py3-none-any.whl"].

(** The disk before a build: [/tmp], and an archive of an earlier build. *)
Definition disk0 : gmap path node :=
  {[ ["/"; "tmp"] := Dir; ["dist"] := Dir; wheel0 := File "old wheel" ]}.

Definition w0 : world := World disk0 [].

Definition self_of (dist : Distribution) (d : option string) : editable_wheel :=
  {| distribution := dist;
     dist_dir := ["dist"];
     dist_info_dir := d;
     project_dir := ".";
     strict := false |}.

(** A project kept outside the working directory, whose root package is
    mapped to the empty string. *)
Definition E_dev : Env := posix "/home/dev" ["k3x9q2ab"].

Definition dist_root_empty : Distribution :=
  {| src_root := Some "/srv/pkg"; package_dir := Some {[ "" := "" ]}; namespace_packages := None |}.

Definition self_root_empty : editable_wheel :=
  {| distribution := dist_root_empty;
     dist_dir := ["/"; "srv"; "pkg"; "dist"];
     dist_info_dir := None;
     project_dir := "/srv/pkg";
     strict := false |}.

(** The staging directory of the builds below. *)
Definition tmp0 : string := "/tmp/tmpk3x9q2abfoo-1.0-0.editable-py3-none-any.whl".

(** The disk of a project that has its dist-info directory already. *)
Definition disk1 : gmap path node :=
  <[ ["dist"; "foo-1.0.dist-info"; "METADATA"] := File "Name: foo" ]>
  (<[ ["dist"; "foo-1.0.dist-info"] := Dir ]> disk0).

Definition w1 : world := World disk1 [].

(** The command of the project [foo] with its dist-info directory
    supplied, and with one that is not there. *)
Definition self1 : editable_wheel := self_of dist_ns (Some "dist/foo-1.0.dist-info").

Definition self_missing : editable_wheel := self_of dist_ns (Some "dist/gone.dist-info").


End Demo.

(** ** Notions the properties are stated with *)

(** A path is well formed when only its first component may be a root and
    no other component holds a separator. *)
Definition parts_ok (p : path) : Prop :=
  match p with
  | [] => True
  | h :: t => (is_root h = true ∨ Str.has_sep h = false) ∧ Forall (λ x, Str.has_sep x = false) t
  end.

(** The calls made between two states of the world. *)
Definition since (w w' : world) : list event := drop (length (history w)) (history w').

(** [spec c w Q]: run from [w], the computation [c] adds the calls [new] to
    the history and ends in a world and with an outcome that satisfy [Q new]. *)
Definition spec {A : Type} (c : M A) (w : world)
    (Q : list event → world → outcome A → Prop) : Prop :=
  ∃ new, history (c w).1 = history w ++ new ∧ Q new (c w).1 (c w).2.

(** ** The course of [_create_wheel_file], as a relation *)

Section Course.

Variable E : Env.
Variable C : Collaborators.
Variable self : editable_wheel.

(** The staging directory that the candidate name [n] gives. *)
Definition staging_dir (n : string) : string :=
  os_path_join (gettempdir E) ("tmp" +:+ n +:+ archive_name C).

(** The call to the namespace installer for the staging directory [tmp],
    when the distribution declares namespace packages, and its effect. *)
Definition namespace_call (tmp : string) : list event :=
  if declares_namespaces (distribution self) then
    [EvInstallNamespaces (default [] (namespace_packages (distribution self)))
       (os_path_join tmp (dist_info_name C)) (repr E (target E self))]
  else [].

Definition namespace_step (tmp : string) (f : gmap path node) : gmap path node * outcome unit :=
  if declares_namespaces (distribution self) then
    Installer_install_namespaces C (default [] (namespace_packages (distribution self)))
      (os_path_join tmp (dist_info_name C)) (repr E (target E self)) f
  else (f, Return tt).

(** The staging directory with the redirect file written. *)
Definition with_redirect (tmp : string) (f : gmap path node) : gmap path node :=
  <[Path [tmp; pth_name (dist_info_name C)] := File (target E self +:+ newline)]> f.

(** Two file systems that agree outside the directory [tmp]. *)
Definition outside (tmp : string) (f f' : gmap path node) : Prop :=
  ∀ q, ¬ Path [tmp] `prefix_of` q → FS.stat f' q = FS.stat f q.

(** What the body of the [with] block can do from the file system [f1], in
    which [tmp] is about to be made: the calls, the file system it leaves
    (before the clean-up), and its outcome. *)
Inductive staged (tmp : string) (f1 : gmap path node) :
    list event → gmap path node → outcome unit → Prop :=
| staged_copy_failed f3 e :
    outside tmp f1 f3 →
    staged tmp f1 [] f3 (Raise e)
| staged_namespaces_failed f3 f4 e :
    outside tmp f1 f3 →
    namespace_step tmp f3 = (f4, Raise e) →
    staged tmp f1 (namespace_call tmp) f4 (Raise e)
| staged_redirect_failed f3 f4 f5 e :
    outside tmp f1 f3 →
    namespace_step tmp f3 = (f4, Return tt) →
    outside tmp f4 f5 →
    staged tmp f1 (namespace_call tmp) f5 (Raise e)
| staged_written f3 f4 :
    outside tmp f1 f3 →
    namespace_step tmp f3 = (f4, Return tt) →
    staged tmp f1
      (namespace_call tmp ++ [EvWriteFiles (wheel_path_of C self) tmp (with_redirect tmp f4)])
      (WheelFile_write_files C (wheel_path_of C self) tmp (with_redirect tmp f4)).1
      (WheelFile_write_files C (wheel_path_of C self) tmp (with_redirect tmp f4)).2.

End Course.

(** A path in canonical form: well formed, and no component is empty or
    ["."]; this is what [Path] gives. *)
Definition canonical (p : path) : Prop :=
  parts_ok p ∧ Forall (λ x, x ≠ "" ∧ x ≠ ".") p.

(** The calls that prepare a build, before the archive is put together. *)
Definition is_preparation (ev : event) : bool :=
  match ev with
  | EvDistInfo _ | EvWriteWheelfile _ | EvBuildExt _ => true
  | _ => false
  end.

Definition is_write_files (ev : event) : bool :=
  match ev with
  | EvWriteFiles _ _ _ => true
  | _ => false
  end.

(** Assumptions on the surroundings of a build: no staging directory that
    [tempfile] may choose is the archive path or above it, and the
    namespace installer, which works in the staging directory, puts nothing
    at the archive path. *)
Definition staging_apart (E : Env) (C : Collaborators) (self : editable_wheel) : bool :=
  forallb (λ n, negb (bool_decide (Path [staging_dir E C n] `prefix_of` wheel_path_of C self)))
          (candidate_names E).

Definition installer_keeps (E : Env) (C : Collaborators) (self : editable_wheel) : Prop :=
  ∀ n f, n ∈ candidate_names E →
    FS.exists_ f (wheel_path_of C self) = false →
    FS.exists_ (namespace_step E C self (staging_dir E C n) f).1 (wheel_path_of C self) = false.

(** The same of the commands that prepare a build: [dist_info],
    [write_wheelfile] and [build_ext] work in the dist-info directory and
    the source tree, and leave the archive path as it is. *)
Definition preparation_keeps (C : Collaborators) (self : editable_wheel) : Prop :=
  ∀ f,
    FS.stat (dist_info_run C (dist_dir self) f).1 (wheel_path_of C self)
    = FS.stat f (wheel_path_of C self) ∧
    (∀ d, FS.stat (bdist_wheel_write_wheelfile C d f).1 (wheel_path_of C self)
          = FS.stat f (wheel_path_of C self)) ∧
    FS.stat (build_ext_run C true f).1 (wheel_path_of C self)
    = FS.stat f (wheel_path_of C self).

(** The calls to the namespace installer among the calls [evs]. *)
Definition is_install_namespaces (ev : event) : bool :=
  match ev with
  | EvInstallNamespaces _ _ _ => true
  | _ => false
  end.

Definition installer_calls (evs : list event) : list event :=
  List.filter is_install_namespaces evs.

(** Whether a supplied dist-info directory passes the checks of
    [_ensure_dist_info]. *)
Definition dist_info_valid (d : string) (f : gmap path node) : bool :=
  Str.endswith d ".dist-info" && FS.exists_ f (Path [d; "METADATA"]).


(** ** Notions the further properties are stated with *)

(** The calls of a complete build, in their order: the [dist_info] command
    when no dist-info directory was supplied, [write_wheelfile] on the
    dist-info directory [d], [build_ext] in place, the staging directory
    [tmp], the namespace installer when namespace packages are declared,
    and the archive writer, which finds the file system [found]. *)
Definition build_calls (E : Env) (C : Collaborators) (self : editable_wheel)
    (d tmp : string) (found : gmap path node) : list event :=
  match dist_info_dir self with
  | None => [EvDistInfo (dist_dir self)]
  | Some _ => []
  end ++
  [EvWriteWheelfile d; EvBuildExt true; EvMkdtemp tmp] ++
  namespace_call E C self tmp ++
  [EvWriteFiles (wheel_path_of C self) tmp found].

(** Where the dist-info directory [d] of a build comes from: it was
    supplied, or the [dist_info] command returned it. *)
Definition dist_info_source (C : Collaborators) (self : editable_wheel) (w : world)
    (d : string) : Prop :=
  dist_info_dir self = Some d ∨
  (dist_info_dir self = None ∧ (dist_info_run C (dist_dir self) (fs w)).2 = Return d).

(** The staging directories made by the calls [evs]. *)
Definition staging_dirs (evs : list event) : list string :=
  omap (λ ev, match ev with EvMkdtemp tmp => Some tmp | _ => None end) evs.

(** The file system in which the dist-info directory [d] has been copied
    into the staging directory [tmp], just made in [f1]. *)
Definition with_dist_info (d tmp : string) (f1 : gmap path node) : gmap path node :=
  let f2 := <[Path [tmp]:=Dir]> f1 in
  let dst := Path [tmp; name (Path [d])] in
  FS.copied_entries (Path [d]) dst f2 ∪ <[dst:=Dir]> f2.

(** More of the concrete setting: a machine without a compiler, an
    earlier archive that cannot be removed, a target that cannot be encoded,
    disks with something in the way, and a package-directory mapping with
    a second entry. *)

Module DemoFurther.

Import Demo.

Definition C_no_compiler : Collaborators :=
  {| dist_info_name := "foo-1.0";
     dist_info_run := dist_info_run_foo;
     bdist_wheel_get_tag := ["py3"; "none"; "any"];
     bdist_wheel_write_wheelfile := write_wheelfile_foo;
     build_ext_run := λ _ f, (f, Raise (ExternalError "compiler not found"));
     Installer_install_namespaces := install_namespaces_foo;
     WheelFile_write_files := write_files_foo |}.

(** The archive of the earlier build cannot be removed: it belongs to
    another user, in an output directory with the sticky bit. *)
Definition E_protected : Env :=
  {| sys_platform := "linux";
     os_path_abspath := abspath "/proj";
     os_path_realpath := abspath "/proj";
     os_path_normpath := normpath;
     os_path_normcase := λ s, s;
     repr := repr_ascii;
     gettempdir := "/tmp";
     candidate_names := ["k3x9q2ab"];
     unlink_error := λ p, if bool_decide (p = wheel0) then Some PermissionError else None;
     write_error := λ _, None |}.




(** The dist-info directory of [self1], as a string. *)
Definition d1 : string := "dist/foo-1.0.dist-info".

(** A directory at the archive path. *)
Definition w_dir : world := World (<[ wheel0 := Dir ]> disk1) [].


Definition dist_two_entries : Distribution :=
  {| src_root := None;
     package_dir := Some (<[ "pkg" := "lib/pkg" ]> {[ "" := "src" ]});
     namespace_packages := Some ["ns"] |}.

Definition self_two_entries : editable_wheel := self_of dist_two_entries (Some d1).

End DemoFurther.

(** * Properties *)

(** ** Strings and paths *)

Section PathFacts.

Example split_sep_ex : Str.split_sep "a//b/" = ["a"; ""; "b"; ""].
Proof. reflexivity. Qed.

Example Path_ex1 : Path ["/tmp/x//y/./z/"] = ["/"; "tmp"; "x"; "y"; "z"].
Proof. vm_compute. reflexivity. Qed.

Example Path_ex2 : Path ["dist"; "/abs"; "f.whl"] = ["/"; "abs"; "f.whl"].
Proof. vm_compute. reflexivity. Qed.

Example Path_ex3 : Path_of ["dist"] ["foo-0.editable-py3-none-any.whl"] = ["dist"; "foo-0.editable-py3-none-any.whl"].
Proof. vm_compute. reflexivity. Qed.

Example Path_ex4 : Path ["./dist"] = ["dist"] /\ Path ["//x"] = ["//"; "x"] /\ Path ["///x"] = ["/"; "x"].
Proof. vm_compute. auto. Qed.

Example join_ex : os_path_join "." "dist" = "./dist" /\ os_path_join "/t/" "x" = "/t/x" /\ os_path_join "a" "/b" = "/b".
Proof. vm_compute. auto. Qed.

Lemma has_sep_app (a b : string) :
  Str.has_sep (a +:+ b) = Str.has_sep a || Str.has_sep b.
Proof.
  induction a as [|c a IH]; simpl; [done|].
  rewrite IH. by rewrite orb_assoc.
Qed.

Lemma is_root_has_sep (s : string) : is_root s = true → Str.has_sep s = true.
Proof.
  unfold is_root. intros [H|H]%orb_prop; apply String.eqb_eq in H; by subst.
Qed.

Lemma startswith_sep_has_sep (s : string) :
  Str.startswith s "/" = true → Str.has_sep s = true.
Proof.
  destruct s as [|c s]; simpl; [done|].
  rewrite andb_true_r. by intros ->.
Qed.

Lemma split_sep_no_sep (s : string) :
  Forall (λ x, Str.has_sep x = false) (Str.split_sep s).
Proof.
  induction s as [|c s IH]; simpl.
  - by repeat constructor.
  - destruct (Ascii.eqb c "/") eqn:Hc.
    + by constructor.
    + destruct (Str.split_sep s) as [|h t]; [by repeat constructor; simpl; rewrite Hc|].
      inversion_clear IH as [|? ? Hh Ht].
      constructor; [|done]. simpl. by rewrite Hc, Hh.
Qed.

Lemma split_sep_single (s : string) :
  Str.has_sep s = false → Str.split_sep s = [s].
Proof.
  induction s as [|c s IH]; simpl; [done|].
  intros [Hc Hs]%orb_false_elim. rewrite Hc. by rewrite (IH Hs).
Qed.

Lemma lstrip_sep_id (s : string) : Str.startswith s "/" = false → Str.lstrip_sep s = s.
Proof.
  destruct s as [|c s]; simpl; [done|].
  rewrite andb_true_r. by intros ->.
Qed.

Lemma parts_ok_relative (p : path) :
  parts_ok p → is_absolute p = false → Forall (λ x, Str.has_sep x = false) p.
Proof.
  destruct p as [|h t]; simpl; [done|].
  intros [[Hr|Hh] Ht] Hn; [congruence|]. by constructor.
Qed.

Lemma no_sep_relative (p : path) :
  Forall (λ x, Str.has_sep x = false) p → is_absolute p = false.
Proof.
  destruct p as [|h t]; simpl; [done|].
  intros [Hh _]%Forall_cons. destruct (is_root h) eqn:Hr; [|done].
  apply is_root_has_sep in Hr. congruence.
Qed.

Lemma no_sep_parts_ok (p : path) :
  Forall (λ x, Str.has_sep x = false) p → parts_ok p.
Proof. destruct p; simpl; [done|]. intros [? ?]%Forall_cons. auto. Qed.

Lemma filter_no_sep (P : string → Prop) `{!∀ x, Decision (P x)} (l : list string) :
  Forall (λ x, Str.has_sep x = false) l → Forall (λ x, Str.has_sep x = false) (filter P l).
Proof.
  intros Hl. apply Forall_forall. intros x [_ Hx]%list_elem_of_filter.
  by eapply Forall_forall in Hl.
Qed.

Lemma parse_one_relative (s : string) :
  Str.startswith s "/" = false →
  parse_one s = filter (λ x, x ≠ "" ∧ x ≠ ".") (Str.split_sep s).
Proof. intros H. unfold parse_one, splitroot. by rewrite H. Qed.

Lemma parse_one_relative_no_sep (s : string) :
  Str.startswith s "/" = false → Forall (λ x, Str.has_sep x = false) (parse_one s).
Proof.
  intros H. rewrite (parse_one_relative _ H).
  apply filter_no_sep, split_sep_no_sep.
Qed.

Lemma parse_one_ok (s : string) : parts_ok (parse_one s).
Proof.
  destruct (Str.startswith s "/") eqn:H.
  - unfold parse_one, splitroot. rewrite H.
    destruct (_ =? 2)%nat; simpl; (split; [by left|]);
      apply filter_no_sep, split_sep_no_sep.
  - by apply no_sep_parts_ok, parse_one_relative_no_sep.
Qed.

Lemma parts_ok_app (p q : path) :
  parts_ok p → Forall (λ x, Str.has_sep x = false) q → parts_ok (p ++ q).
Proof.
  destruct p as [|h t]; simpl.
  - intros _. apply no_sep_parts_ok.
  - intros [Hh Ht] Hq. split; [done|]. by apply Forall_app.
Qed.

Lemma parse_parts_ok (args : list string) : parts_ok (parse_parts args).
Proof.
  induction args as [|a rest IH]; simpl; [done|].
  destruct (is_absolute (parse_parts rest)) eqn:Habs; [done|].
  apply parts_ok_app; [apply parse_one_ok|]. by apply parts_ok_relative.
Qed.

Lemma last_elem_of (x : string) (l : list string) (d : string) :
  List.last (x :: l) d ∈ x :: l.
Proof.
  revert x. induction l as [|y l IH]; intros x; [by left|].
  right. apply IH.
Qed.

Lemma name_no_sep (p : path) : parts_ok p → Str.has_sep (name p) = false.
Proof.
  destruct p as [|h t]; [done|].
  destruct t as [|h' t'].
  - simpl. intros [[Hr|Hh] _]; [by rewrite Hr|]. by destruct (is_root h).
  - intros [_ Ht]. unfold name.
    change (List.last (h :: h' :: t') "") with (List.last (h' :: t') "").
    eapply Forall_forall in Ht; [done|]. apply last_elem_of.
Qed.

End PathFacts.

Section PathFacts2.

Lemma Path_single (a : string) : Path [a] = parse_one a.
Proof. unfold Path. simpl. by rewrite app_nil_r. Qed.

Lemma Path_pair (a s : string) :
  Str.startswith s "/" = false → Path [a; s] = Path [a] ++ parse_one s.
Proof.
  intros Hs. rewrite Path_single. unfold Path. simpl. rewrite !app_nil_r.
  by rewrite (no_sep_relative _ (parse_one_relative_no_sep _ Hs)).
Qed.

Lemma has_sep_startswith (s : string) :
  Str.has_sep s = false → Str.startswith s "/" = false.
Proof.
  intros H. destruct (Str.startswith s "/") eqn:Hs; [|done].
  apply startswith_sep_has_sep in Hs. congruence.
Qed.

Lemma parse_one_component (s : string) :
  Str.has_sep s = false → s ≠ "" → s ≠ "." → parse_one s = [s].
Proof.
  intros Hs H1 H2.
  rewrite (parse_one_relative _ (has_sep_startswith _ Hs)), (split_sep_single _ Hs).
  by rewrite filter_cons_True.
Qed.

Lemma Path_child (a s : string) :
  Str.has_sep s = false → s ≠ "" → s ≠ "." → Path [a; s] = Path [a] ++ [s].
Proof.
  intros Hs H1 H2. rewrite (Path_pair _ _ (has_sep_startswith _ Hs)).
  by rewrite parse_one_component.
Qed.

Lemma Path_pair_prefix (a s : string) :
  Str.startswith s "/" = false → Path [a] `prefix_of` Path [a; s].
Proof. intros Hs. rewrite (Path_pair _ _ Hs). by apply prefix_app_r. Qed.

Lemma parse_parts_snoc (l : list string) (s : string) :
  Str.has_sep s = false → s ≠ "" → s ≠ "." →
  parse_parts (l ++ [s]) = parse_parts l ++ [s].
Proof.
  intros Hs H1 H2. induction l as [|a l IH]; simpl.
  - by rewrite app_nil_r, parse_one_component.
  - rewrite IH. destruct (parse_parts l) as [|h t] eqn:Hl; simpl.
    + destruct (is_root s) eqn:Hr; [|by rewrite app_nil_r].
      apply is_root_has_sep in Hr. congruence.
    + destruct (is_root h); [done|]. by rewrite <- app_assoc.
Qed.

Lemma Path_of_child (p : path) (s : string) :
  Str.has_sep s = false → s ≠ "" → s ≠ "." → Path_of p [s] = Path_of p [] ++ [s].
Proof.
  intros. unfold Path_of. rewrite app_nil_r. by apply parse_parts_snoc.
Qed.

Lemma pth_name_no_sep (dist_id : string) :
  Str.has_sep dist_id = false → Str.has_sep (pth_name dist_id) = false.
Proof. intros H. unfold pth_name. rewrite !has_sep_app, H. reflexivity. Qed.

Lemma pth_name_relative (dist_id : string) : Str.startswith (pth_name dist_id) "/" = false.
Proof. reflexivity. Qed.

Lemma pth_name_proper (dist_id : string) : pth_name dist_id ≠ "" ∧ pth_name dist_id ≠ ".".
Proof. split; discriminate. Qed.

Lemma archive_name_proper (C : Collaborators) : archive_name C ≠ "" ∧ archive_name C ≠ ".".
Proof.
  unfold archive_name. destruct (dist_info_name C) as [|c [|c' n]]; split; discriminate.
Qed.

End PathFacts2.

(** ** The file system *)

Section FsFacts.

Implicit Types (f : gmap path node) (p q d : path) (n : node).

Lemma anchor_prefix d p : d `prefix_of` p → FS.is_anchor p = true → FS.is_anchor d = true.
Proof.
  intros [k ->]. destruct d as [|r [|r' d]]; simpl; try done.
  by destruct k.
Qed.

Lemma stat_insert_ne f p q n : p ≠ q → FS.stat (<[p:=n]> f) q = FS.stat f q.
Proof. intros H. unfold FS.stat. destruct (FS.is_anchor q); [done|]. by rewrite lookup_insert_ne. Qed.

Lemma stat_delete_ne f p q : p ≠ q → FS.stat (delete p f) q = FS.stat f q.
Proof. intros H. unfold FS.stat. destruct (FS.is_anchor q); [done|]. by rewrite lookup_delete_ne. Qed.

Lemma stat_delete_eq f p : FS.is_anchor p = false → FS.stat (delete p f) p = None.
Proof. intros H. unfold FS.stat. rewrite H. by rewrite lookup_delete_eq. Qed.

Lemma exists_false_stat f p : FS.exists_ f p = false ↔ FS.stat f p = None.
Proof. unfold FS.exists_. destruct (FS.stat f p); naive_solver. Qed.

Lemma exists_false_not_anchor f p : FS.exists_ f p = false → FS.is_anchor p = false.
Proof. unfold FS.exists_, FS.stat. by destruct (FS.is_anchor p). Qed.

Lemma exists_false_lookup f p : FS.exists_ f p = false → f !! p = None.
Proof. unfold FS.exists_, FS.stat. destruct (FS.is_anchor p); [done|]. by destruct (f !! p). Qed.

Lemma stat_remove_tree_out f d q : ¬ d `prefix_of` q → FS.stat (FS.remove_tree d f) q = FS.stat f q.
Proof.
  intros H. unfold FS.stat, FS.remove_tree. destruct (FS.is_anchor q); [done|].
  destruct (f !! q) as [n|] eqn:Hq.
  - by apply map_lookup_filter_Some.
  - apply map_lookup_filter_None. by left.
Qed.

Lemma lookup_remove_tree_under f d q : d `prefix_of` q → FS.remove_tree d f !! q = None.
Proof.
  intros H. apply map_lookup_filter_None. right. intros n _ Hn. by apply Hn.
Qed.

Lemma exists_remove_tree_under f d q :
  FS.is_anchor d = false → d `prefix_of` q → FS.exists_ (FS.remove_tree d f) q = false.
Proof.
  intros Ha H. unfold FS.exists_, FS.stat.
  destruct (FS.is_anchor q) eqn:Hq.
  - apply (anchor_prefix _ _ H) in Hq. congruence.
  - by rewrite lookup_remove_tree_under.
Qed.

Lemma copied_entries_under f src dst q n :
  FS.copied_entries src dst f !! q = Some n → dst `prefix_of` q.
Proof.
  unfold FS.copied_entries. intros H%elem_of_list_to_map_2.
  apply list_elem_of_omap in H as (kv & _ & Hkv).
  unfold FS.relocate in Hkv. case_bool_decide; [|done].
  destruct (drop _ _); simplify_eq. by apply prefix_app_r.
Qed.

Lemma stat_copied_out f g src dst q :
  ¬ dst `prefix_of` q → FS.stat (FS.copied_entries src dst g ∪ f) q = FS.stat f q.
Proof.
  intros H. unfold FS.stat. destruct (FS.is_anchor q); [done|].
  apply lookup_union_r. destruct (_ !! q) eqn:Hq; [|done].
  by apply copied_entries_under in Hq.
Qed.

End FsFacts.

(** ** Rules for computations *)

Section Rules.

Context {A : Type}.
Implicit Types (w : world) (Q : list event → world → outcome A → Prop).

Lemma since_app w w' new : history w' = history w ++ new → since w w' = new.
Proof. intros H. unfold since. by rewrite H, drop_app_length. Qed.

Lemma spec_elim (c : M A) w Q : spec c w Q → Q (since w (c w).1) (c w).1 (c w).2.
Proof. intros (new & Hh & HQ). by rewrite (since_app _ _ _ Hh). Qed.

Lemma spec_mono (c : M A) w Q Q' :
  (∀ new w' r, Q new w' r → Q' new w' r) → spec c w Q → spec c w Q'.
Proof. intros H (new & Hh & HQ). exists new. auto. Qed.

Lemma spec_ret (a : A) w Q : Q [] w (Return a) → spec (ret a) w Q.
Proof. intros H. exists []. by rewrite app_nil_r. Qed.

Lemma spec_raise e w Q : Q [] w (Raise e) → spec (raise e) w Q.
Proof. intros H. exists []. by rewrite app_nil_r. Qed.

Lemma spec_look (q : gmap path node → A) w Q : Q [] w (Return (q (fs w))) → spec (look q) w Q.
Proof. intros H. exists []. by rewrite app_nil_r. Qed.

Lemma spec_call (ev : gmap path node → event) (c : ext A) w Q :
  Q [ev (fs w)] (World (c (fs w)).1 (history w ++ [ev (fs w)])) (c (fs w)).2 →
  spec (call ev c) w Q.
Proof.
  intros H. exists [ev (fs w)]. unfold call. by destruct (c (fs w)).
Qed.

Lemma spec_bind {B : Type} (c : M B) (k : B → M A) w Q :
  spec c w (λ n1 w1 r,
    match r with
    | Return b => spec (k b) w1 (λ n2, Q (n1 ++ n2))
    | Raise e => Q n1 w1 (Raise e)
    end) →
  spec (bind c k) w Q.
Proof.
  intros (n1 & Hh & H). unfold spec, bind.
  destruct (c w) as [w1 [b|e]]; simpl in *.
  - destruct H as (n2 & Hh2 & H). exists (n1 ++ n2). split; [|done].
    by rewrite Hh2, Hh, app_assoc.
  - by exists n1.
Qed.

Lemma spec_finally (c : M A) (h : M unit) w Q :
  spec c w (λ n1 w1 r,
    spec h w1 (λ n2 w2 r2,
      Q (n1 ++ n2) w2 match r2 with Return _ => r | Raise e => Raise e end)) →
  spec (finally c h) w Q.
Proof.
  intros (n1 & Hh & n2 & Hh2 & H). unfold spec, finally.
  destruct (c w) as [w1 r]; simpl in *.
  exists (n1 ++ n2). destruct (h w1) as [w2 [[]|e]]; simpl in *;
    (split; [by rewrite Hh2, Hh, app_assoc|done]).
Qed.

End Rules.

Section Rules2.

Implicit Types (w : world).

Lemma spec_change (g : gmap path node → gmap path node) w Q :
  Q [] (World (g (fs w)) (history w)) (Return tt) → spec (change g) w Q.
Proof. intros H. exists []. by rewrite app_nil_r. Qed.

Lemma spec_note (ev : event) w Q :
  Q [ev] (World (fs w) (history w ++ [ev])) (Return tt) → spec (note ev) w Q.
Proof. intros H. by exists [ev]. Qed.

Lemma spec_attempt {A : Type} (c : M A) w Q :
  spec c w (λ n w' r, Q n w' (Return r)) → spec (attempt c) w Q.
Proof.
  intros (n & Hh & H). exists n. unfold attempt. by destruct (c w).
Qed.

End Rules2.

(** ** The operations of [os], [pathlib], [shutil] and [tempfile] *)

Arguments Path : simpl never.
Arguments Path_of : simpl never.
Arguments wheel_path_of : simpl never.
Arguments archive_name : simpl never.
Arguments pth_name : simpl never.
Arguments os_path_join : simpl never.

Section OsFacts.

Implicit Types (f : gmap path node) (p q d : path) (w : world).

Lemma mkdir_eq p w :
  Os.mkdir p w =
  match FS.stat (fs w) (parent p) with
  | Some Dir =>
      if FS.exists_ (fs w) p then (w, Raise FileExistsError)
      else (World (<[p:=Dir]> (fs w)) (history w), Return tt)
  | _ => (w, Raise (Os.lookup_error (fs w) (parent p)))
  end.
Proof.
  unfold Os.mkdir, bind, look, raise, change.
  destruct (FS.stat (fs w) (parent p)) as [[]|]; try done.
  by destruct (FS.exists_ (fs w) p).
Qed.




(** [mkdir] either fails and changes nothing, or makes the directory. *)
Lemma mkdir_rule p w Q :
  (∀ e, Q [] w (Raise e)) →
  (FS.stat (fs w) (parent p) = Some Dir → FS.exists_ (fs w) p = false →
   Q [] (World (<[p:=Dir]> (fs w)) (history w)) (Return tt)) →
  spec (Os.mkdir p) w Q.
Proof.
  intros Hr Hk. exists []. rewrite mkdir_eq, app_nil_r.
  destruct (FS.stat (fs w) (parent p)) as [[]|] eqn:Hp; simpl; try (split; [done|apply Hr]).
  destruct (FS.exists_ (fs w) p) eqn:Hx; simpl; (split; [done|]); auto.
Qed.

Lemma unlink_phase_rule E p w Q :
  (FS.is_dir (fs w) p = true → Q [] w (Raise IsADirectoryError)) →
  (∀ c e, FS.stat (fs w) p = Some (File c) → unlink_error E p = Some e →
          Q [] w (Raise e)) →
  (FS.exists_ (fs w) p = false → Q [] w (Return tt)) →
  (∀ c, FS.stat (fs w) p = Some (File c) → unlink_error E p = None →
        Q [] (World (delete p (fs w)) (history w)) (Return tt)) →
  spec (let* ex := Os.Path_exists p in if ex then Os.Path_unlink E p else ret tt) w Q.
Proof.
  intros Hd Hre Hn Hf. exists []. rewrite app_nil_r.
  unfold bind, Os.Path_exists, Os.Path_unlink, bind, look, raise, change, ret.
  unfold FS.exists_, FS.is_dir in *.
  destruct (FS.stat (fs w) p) as [[c|]|] eqn:Hp; simpl; rewrite ?Hp; simpl.
  - destruct (unlink_error E p) as [e|] eqn:He; simpl; (split; [done|]); eauto.
  - split; [done|]; eauto.
  - split; [done|]; eauto.
Qed.

Lemma mkdtemp_loop_rule dir suffix names w Q :
  (∀ e, Q [] w (Raise e)) →
  (∀ n, n ∈ names →
     let file := os_path_join dir ("tmp" +:+ n +:+ suffix) in
     FS.stat (fs w) (parent (Path [file])) = Some Dir →
     FS.exists_ (fs w) (Path [file]) = false →
     Q [EvMkdtemp file]
       (World (<[Path [file]:=Dir]> (fs w)) (history w ++ [EvMkdtemp file]))
       (Return file)) →
  spec (Os.mkdtemp_loop dir suffix names) w Q.
Proof.
  intros Hr Hk. induction names as [|n rest IH]; simpl.
  - by apply spec_raise.
  - apply spec_bind, spec_attempt, mkdir_rule.
    + intros e. destruct e; try (by apply spec_raise).
      apply IH. intros n' Hn'. apply Hk. by right.
    + intros Hp Hx. apply spec_bind, spec_note, spec_ret. simpl.
      apply Hk; [by left|done..].
Qed.

Lemma with_TemporaryDirectory_rule {A : Type} dir names suffix (body : string → M A) w Q :
  (∀ e, Q [] w (Raise e)) →
  (∀ n, n ∈ names →
     let tmp := os_path_join dir ("tmp" +:+ n +:+ suffix) in
     FS.stat (fs w) (parent (Path [tmp])) = Some Dir →
     FS.exists_ (fs w) (Path [tmp]) = false →
     spec (body tmp) (World (<[Path [tmp]:=Dir]> (fs w)) (history w ++ [EvMkdtemp tmp]))
       (λ n1 w1 r, Q (EvMkdtemp tmp :: n1)
                     (World (FS.remove_tree (Path [tmp]) (fs w1)) (history w1)) r)) →
  spec (Os.with_TemporaryDirectory dir names suffix body) w Q.
Proof.
  intros Hr Hk. unfold Os.with_TemporaryDirectory.
  apply spec_bind, mkdtemp_loop_rule; [done|].
  intros n Hn tmp Hp Hx. apply spec_finally.
  eapply spec_mono; [|by apply (Hk n)].
  intros n1 w1 r HQ. apply spec_change. by rewrite app_nil_r.
Qed.

Lemma spec_ext {A : Type} (c c' : M A) w Q : c w = c' w → spec c' w Q → spec c w Q.
Proof. unfold spec. by intros ->. Qed.

Lemma parent_removelast p : FS.is_anchor p = false → parent p = removelast p.
Proof.
  destruct p as [|r [|r' p]]; simpl; try done.
  intros ->. done.
Qed.

Lemma makedirs_head_exists p w :
  p ≠ [] → FS.exists_ (fs w) (removelast p) = true → Os.makedirs p w = Os.mkdir p w.
Proof.
  intros Hp Hx. unfold Os.makedirs.
  destruct (rev p) as [|c rhead] eqn:Hrev.
  { apply (f_equal (@rev _)) in Hrev. rewrite rev_involutive in Hrev. done. }
  assert (Hp' : p = rev rhead ++ [c]).
  { apply (f_equal (@rev _)) in Hrev. by rewrite rev_involutive in Hrev. }
  simpl. subst p. rewrite removelast_last in Hx.
  unfold bind at 1. unfold look at 1. rewrite Hx. unfold bind, ret. done.
Qed.

(** [copytree] into a directory that is there touches nothing outside [dst]. *)
Lemma copytree_rule src dst w Q :
  dst ≠ [] → FS.exists_ (fs w) (removelast dst) = true →
  (∀ f' r, (∀ q, ¬ dst `prefix_of` q → FS.stat f' q = FS.stat (fs w) q) →
           Q [] (World f' (history w)) r) →
  spec (Os.copytree src dst) w Q.
Proof.
  intros Hd Hx HQ.
  assert (Hw : ∀ r, Q [] w r).
  { intros r. destruct w as [f h]. by apply HQ. }
  unfold Os.copytree. apply spec_bind, spec_look.
  destruct (FS.stat (fs w) src) as [[c|]|]; try (by apply spec_raise).
  apply spec_bind, spec_look, spec_bind.
  eapply spec_ext; [by apply makedirs_head_exists|].
  apply mkdir_rule; [done|]. intros Hp Hex.
  apply spec_change. simpl. apply HQ. intros q Hq.
  rewrite stat_copied_out by done. apply stat_insert_ne. by intros ->.
Qed.

End OsFacts.

(** ** The methods of the command *)

Section CommandFacts.

Variable E : Env.
Variable C : Collaborators.
Variable self : editable_wheel.

Implicit Types (f : gmap path node) (w : world).

Lemma write_text_eq p data w :
  Os.Path_write_text E p data w =
  match FS.stat (fs w) (parent p) with
  | Some Dir =>
      if FS.is_dir (fs w) p then (w, Raise IsADirectoryError)
      else match write_error E data with
           | Some e => (World (<[p:=File EmptyString]> (fs w)) (history w), Raise e)
           | None => (World (<[p:=File data]> (fs w)) (history w), Return tt)
           end
  | _ => (w, Raise (Os.lookup_error (fs w) (parent p)))
  end.
Proof.
  unfold Os.Path_write_text, bind, look, raise, change.
  destruct (FS.stat (fs w) (parent p)) as [[c|]|]; try done.
  destruct (FS.is_dir (fs w) p); [done|]. simpl.
  destruct (write_error E data); [done|]. simpl. by rewrite insert_insert_eq.
Qed.

(** [write_text] fails and changes nothing, or fails and leaves the file
    empty, or writes the file. *)
Lemma write_text_rule p data w Q :
  (∀ e, Q [] w (Raise e)) →
  (∀ e, write_error E data = Some e →
        Q [] (World (<[p:=File EmptyString]> (fs w)) (history w)) (Raise e)) →
  (write_error E data = None →
   Q [] (World (<[p:=File data]> (fs w)) (history w)) (Return tt)) →
  spec (Os.Path_write_text E p data) w Q.
Proof.
  intros Hr He Hk. exists []. rewrite write_text_eq, app_nil_r.
  destruct (FS.stat (fs w) (parent p)) as [[c|]|]; simpl; try (split; [done|apply Hr]).
  destruct (FS.is_dir (fs w) p); simpl; [split; [done|apply Hr]|].
  destruct (write_error E data) as [e|] eqn:Hw; simpl; (split; [done|]); auto.
Qed.

Lemma install_namespaces_rule tmp w Q :
  Q (namespace_call E C self tmp)
    (World (namespace_step E C self tmp (fs w)).1 (history w ++ namespace_call E C self tmp))
    (namespace_step E C self tmp (fs w)).2 →
  spec (_install_namespaces E C self tmp (dist_info_name C)) w Q.
Proof.
  unfold _install_namespaces, namespace_call, namespace_step.
  destruct (declares_namespaces (distribution self)); simpl.
  - intros H. by apply spec_call.
  - intros H. apply spec_ret. destruct w as [f h]. simpl in H. by rewrite app_nil_r in H.
Qed.

Lemma outside_mkdir tmp f : outside tmp f (<[Path [tmp]:=Dir]> f).
Proof. intros q Hq. apply stat_insert_ne. intros <-. by apply Hq. Qed.

Lemma outside_trans tmp f1 f2 f3 : outside tmp f1 f2 → outside tmp f2 f3 → outside tmp f1 f3.
Proof. intros H1 H2 q Hq. by rewrite H2, H1. Qed.

Lemma removelast_ne (p : path) : p ≠ [] → removelast p ≠ p.
Proof.
  intros Hp Heq. apply (f_equal length) in Heq.
  destruct p as [|x p] using rev_ind; [done|].
  rewrite removelast_last, length_app in Heq. simpl in Heq. lia.
Qed.

(** The directory that receives the copy of the dist-info directory is the
    staging directory or an entry of it. *)
Lemma tmp_dist_info_cases (tmp d : string) :
  Path [tmp; name (Path [d])] = Path [tmp] ∨
  Path [tmp; name (Path [d])] = Path [tmp] ++ [name (Path [d])].
Proof.
  pose proof (name_no_sep _ (parse_parts_ok [d])) as Hn.
  fold (Path [d]) in Hn. set (nm := name (Path [d])) in *.
  rewrite (Path_pair _ _ (has_sep_startswith _ Hn)).
  rewrite (parse_one_relative _ (has_sep_startswith _ Hn)), (split_sep_single _ Hn).
  rewrite filter_cons, filter_nil. case_decide; [by right|left; by rewrite app_nil_r].
Qed.

(** The body of the [with] block follows one of the courses of [staged]. *)
Lemma staging_rule tmp f1 h Q :
  FS.stat f1 (parent (Path [tmp])) = Some Dir →
  FS.exists_ f1 (Path [tmp]) = false →
  (∀ evs f' r, staged E C self tmp f1 evs f' r → Q evs (World f' (h ++ evs)) r) →
  spec (match dist_info_dir self with
        | None => raise TypeError
        | Some d =>
            Os.copytree (Path [d]) (Path [tmp; name (Path [d])]) ;;
            _install_namespaces E C self tmp (dist_info_name C) ;;
            _populate_wheel E self (dist_info_name C) tmp ;;
            call (EvWriteFiles (wheel_path_of C self) tmp)
                 (WheelFile_write_files C (wheel_path_of C self) tmp)
        end) (World (<[Path [tmp]:=Dir]> f1) h) Q.
Proof.
  intros Hpar Hx HQ.
  pose proof (exists_false_not_anchor _ _ Hx) as Hanchor.
  assert (Hne : Path [tmp] ≠ []) by (by intros Heq; rewrite Heq in Hanchor).
  assert (Hq0 : ∀ f3 e, outside tmp f1 f3 → Q [] (World f3 h) (Raise e)).
  { intros f3 e Hout. rewrite <- (app_nil_r h) at 1. apply HQ. by constructor. }
  destruct (dist_info_dir self) as [d|].
  2: { apply spec_raise, Hq0, outside_mkdir. }
  apply spec_bind, copytree_rule; simpl.
  { destruct (tmp_dist_info_cases tmp d) as [->| ->]; [done|]. by destruct (Path [tmp]). }
  { destruct (tmp_dist_info_cases tmp d) as [->| ->].
    - rewrite <- parent_removelast by done. unfold FS.exists_.
      rewrite stat_insert_ne, Hpar; [done|].
      rewrite parent_removelast by done. intros Heq. by apply (removelast_ne (Path [tmp])).
    - rewrite removelast_last. unfold FS.exists_, FS.stat.
      by rewrite Hanchor, lookup_insert_eq. }
  intros f3 r Hf3.
  assert (Hout : outside tmp f1 f3).
  { intros q Hq. rewrite Hf3, stat_insert_ne; [done|by intros <-; apply Hq|].
    intros Hd. apply Hq. etrans; [|exact Hd].
    destruct (tmp_dist_info_cases tmp d) as [->| ->]; [done|by apply prefix_app_r]. }
  destruct r as [[]|e]; [|by apply Hq0].
  apply spec_bind, install_namespaces_rule. simpl.
  destruct (namespace_step E C self tmp f3) as [f4 [[]|e]] eqn:Hns; simpl.
  2: { rewrite ?app_nil_r. apply HQ. by eapply staged_namespaces_failed. }
  apply spec_bind. unfold _populate_wheel. apply write_text_rule; simpl.
  { intros e. rewrite ?app_nil_r. apply HQ.
    by eapply (staged_redirect_failed _ _ _ _ _ f3 f4 f4). }
  { intros e _. rewrite ?app_nil_r. apply HQ.
    eapply (staged_redirect_failed _ _ _ _ _ f3 f4); [done..|].
    intros q Hq. apply stat_insert_ne. intros <-. apply Hq.
    apply Path_pair_prefix, pth_name_relative. }
  intros _. apply spec_call. simpl. rewrite ?app_nil_r, <- ?app_assoc.
  pose proof (staged_written E C self tmp f1 f3 f4 Hout Hns) as Hs.
  apply HQ in Hs. exact Hs.
Qed.

(** The course of [_create_wheel_file]: the file at the archive path is
    removed; a staging directory is made; the body runs; the staging
    directory is removed; the archive path is returned. *)
Lemma create_wheel_file_rule w Q :
  (FS.is_dir (fs w) (wheel_path_of C self) = true → Q [] w (Raise IsADirectoryError)) →
  (∀ e, FS.is_file (fs w) (wheel_path_of C self) = true →
        unlink_error E (wheel_path_of C self) = Some e → Q [] w (Raise e)) →
  (∀ f1, FS.exists_ f1 (wheel_path_of C self) = false →
         (∀ q, q ≠ wheel_path_of C self → FS.stat f1 q = FS.stat (fs w) q) →
     (∀ e, Q [] (World f1 (history w)) (Raise e)) ∧
     (∀ n evs f' r, n ∈ candidate_names E →
        FS.exists_ f1 (Path [staging_dir E C n]) = false →
        staged E C self (staging_dir E C n) f1 evs f' r →
        Q (EvMkdtemp (staging_dir E C n) :: evs)
          (World (FS.remove_tree (Path [staging_dir E C n]) f')
                 (history w ++ EvMkdtemp (staging_dir E C n) :: evs))
          match r with
          | Return _ => Return (wheel_path_of C self)
          | Raise e => Raise e
          end)) →
  spec (_create_wheel_file E C self) w Q.
Proof.
  intros Hdir Hre Hgo.
  assert (Hrest : ∀ f1 h,
    FS.exists_ f1 (wheel_path_of C self) = false →
    (∀ q, q ≠ wheel_path_of C self → FS.stat f1 q = FS.stat (fs w) q) →
    h = history w →
    spec (Os.with_TemporaryDirectory (gettempdir E) (candidate_names E) (archive_name C) (λ tmp,
            match dist_info_dir self with
            | None => raise TypeError
            | Some d =>
                Os.copytree (Path [d]) (Path [tmp; name (Path [d])]) ;;
                _install_namespaces E C self tmp (dist_info_name C) ;;
                _populate_wheel E self (dist_info_name C) tmp ;;
                call (EvWriteFiles (wheel_path_of C self) tmp)
                     (WheelFile_write_files C (wheel_path_of C self) tmp)
            end) ;; ret (wheel_path_of C self)) (World f1 h) Q).
  { intros f1 h Hx Hfr ->. destruct (Hgo f1 Hx Hfr) as [Hr Hk].
    apply spec_bind, with_TemporaryDirectory_rule; [done|].
    intros n Hn tmp Hpar Hxt. simpl in *.
    apply staging_rule; [done..|].
    intros evs f' r Hs. fold (staging_dir E C n) in *. fold tmp in Hs.
    specialize (Hk n evs f' r Hn Hxt Hs). simpl.
    rewrite <- app_assoc. simpl.
    destruct r as [[]|e]; [|done].
    apply spec_ret. by rewrite app_nil_r. }
  unfold _create_wheel_file. apply spec_bind, unlink_phase_rule.
  - done.
  - intros c e Hc He. apply Hre; [|done]. unfold FS.is_file. by rewrite Hc.
  - intros Hx. simpl. destruct w as [f h]. by apply Hrest.
  - intros c Hc _. simpl. apply Hrest; [|by intros q Hq; apply stat_delete_ne|done].
    apply exists_false_stat, stat_delete_eq.
    unfold FS.stat in Hc. by destruct (FS.is_anchor _).
Qed.

End CommandFacts.

(** ** What the calls of a build are *)

Section CourseFacts.

Variable E : Env.
Variable C : Collaborators.
Variable self : editable_wheel.

Lemma namespace_call_elem ev tmp :
  ev ∈ namespace_call E C self tmp →
  declares_namespaces (distribution self) = true ∧
  ev = EvInstallNamespaces (default [] (namespace_packages (distribution self)))
         (os_path_join tmp (dist_info_name C)) (repr E (target E self)).
Proof.
  unfold namespace_call. destruct (declares_namespaces (distribution self)).
  - by intros ->%list_elem_of_singleton.
  - by intros ?%elem_of_nil.
Qed.

(** The calls of the body are the namespace installer's, if any, and then
    the archive writer's, which finds the redirect file written. *)
Lemma staged_elem tmp f1 evs f' r ev :
  staged E C self tmp f1 evs f' r → ev ∈ evs →
  ev ∈ namespace_call E C self tmp ∨
  ∃ f3 f4, outside tmp f1 f3 ∧ namespace_step E C self tmp f3 = (f4, Return tt) ∧
    ev = EvWriteFiles (wheel_path_of C self) tmp (with_redirect E C self tmp f4) ∧
    f' = (WheelFile_write_files C (wheel_path_of C self) tmp (with_redirect E C self tmp f4)).1 ∧
    r = (WheelFile_write_files C (wheel_path_of C self) tmp (with_redirect E C self tmp f4)).2.
Proof.
  intros Hs Hev. destruct Hs as [f3 e Ho|f3 f4 e Ho Hn|f3 f4 f5 e Ho Hn Ho5|f3 f4 Ho Hn].
  - by apply elem_of_nil in Hev.
  - by left.
  - by left.
  - apply elem_of_app in Hev as [Hev|Hev]; [by left|].
    apply list_elem_of_singleton in Hev. right. by exists f3, f4.
Qed.

(** A body that returns has called the archive writer. *)
Lemma staged_returns tmp f1 evs f' u :
  staged E C self tmp f1 evs f' (Return u) →
  ∃ found, EvWriteFiles (wheel_path_of C self) tmp found ∈ evs.
Proof.
  intros Hs. inversion Hs; subst.
  eexists. apply elem_of_app. right. by apply list_elem_of_singleton.
Qed.

End CourseFacts.


(** ** Canonical paths *)

Section Canonical.

Lemma parse_one_root (r : string) : is_root r = true → parse_one r = [r].
Proof.
  unfold is_root. intros [H|H]%orb_prop; apply String.eqb_eq in H; by subst.
Qed.

Lemma canonical_tail (h : string) (t : path) : canonical (h :: t) → canonical t.
Proof.
  intros [[_ Ht] [_ Hf]%Forall_cons]. split; [by apply no_sep_parts_ok|done].
Qed.

Lemma parse_parts_canonical_id (p : path) : canonical p → parse_parts p = p.
Proof.
  induction p as [|h t IH]; [done|]. intros Hc.
  pose proof (canonical_tail _ _ Hc) as Ht.
  destruct Hc as [[Hh Hsep] [[Hh1 Hh2] _]%Forall_cons].
  simpl. rewrite (IH Ht), (no_sep_relative _ Hsep).
  destruct Hh as [Hr|Hs]; [by rewrite parse_one_root|by rewrite parse_one_component].
Qed.

Lemma parse_one_canonical (s : string) : canonical (parse_one s).
Proof.
  split; [apply parse_one_ok|].
  unfold parse_one. destruct (splitroot s) as [root rel] eqn:Hs.
  apply Forall_app. split.
  - unfold splitroot in Hs. destruct (Str.startswith s "/"); [|by simplify_eq].
    destruct (_ =? 2)%nat; simplify_eq; by repeat constructor.
  - apply Forall_forall. by intros x [? _]%list_elem_of_filter.
Qed.

Lemma parse_parts_canonical (args : list string) : canonical (parse_parts args).
Proof.
  split; [apply parse_parts_ok|].
  induction args as [|a rest IH]; simpl; [done|].
  destruct (is_absolute (parse_parts rest)); [done|].
  apply Forall_app. split; [apply parse_one_canonical|done].
Qed.

(** A path object joined with one more component is that component
    appended. *)
Lemma Path_of_Path_child (args : list string) (s : string) :
  Str.has_sep s = false → s ≠ "" → s ≠ "." →
  Path_of (Path args) [s] = Path args ++ [s].
Proof.
  intros Hs H1 H2. rewrite Path_of_child by done. unfold Path_of.
  rewrite app_nil_r. unfold Path. by rewrite parse_parts_canonical_id by apply parse_parts_canonical.
Qed.

End Canonical.

(** ** [finalize_options] and [run] *)

Section RunFacts.

Variable E : Env.
Variable C : Collaborators.

Implicit Types (w : world) (self : editable_wheel).




Lemma is_dir_stat f p : FS.is_dir f p = true ↔ FS.stat f p = Some Dir.
Proof. unfold FS.is_dir. destruct (FS.stat f p) as [[]|]; naive_solver. Qed.

Lemma ensure_dist_info_eq self d w :
  dist_info_dir self = Some d →
  _ensure_dist_info C self w =
  (w, if dist_info_valid d (fs w) then Return self else Raise AssertionError).
Proof.
  intros Hd. unfold _ensure_dist_info, dist_info_valid. rewrite Hd.
  destruct (Str.endswith d ".dist-info"); simpl; [|done].
  unfold bind, Os.Path_exists, look. simpl. by destruct (FS.exists_ _ _).
Qed.

(** [run]: the preparation, which may fail, then [_create_wheel_file] on
    a command that differs from [self] in its dist-info directory at most;
    the value of [run] is [None]. *)
Lemma run_rule self w Q :
  (∀ evs w1 e, forallb is_preparation evs = true → Q evs w1 (Raise e)) →
  (∀ evs w1 self', forallb is_preparation evs = true →
     distribution self' = distribution self → dist_dir self' = dist_dir self →
     project_dir self' = project_dir self →
     spec (_create_wheel_file E C self') w1
       (λ n2 w2 r, Q (evs ++ n2) w2
          match r with Return _ => Return None | Raise e => Raise e end)) →
  spec (run E C self) w Q.
Proof.
  intros Hfail Hgo. unfold run. apply spec_bind.
  assert (Hafter : ∀ evs w1 self',
    forallb is_preparation evs = true →
    distribution self' = distribution self → dist_dir self' = dist_dir self →
    project_dir self' = project_dir self →
    spec (match dist_info_dir self' with
          | None => raise TypeError
          | Some d =>
              call (λ _, EvWriteWheelfile d) (bdist_wheel_write_wheelfile C d) ;;
              call (λ _, EvBuildExt true) (build_ext_run C true) ;;
              _create_wheel_file E C self' ;;
              ret None
          end) w1 (λ n2, Q (evs ++ n2))).
  { intros evs w1 self' Hevs H1 H2 H3.
    destruct (dist_info_dir self') as [d|].
    2: { apply spec_raise. rewrite app_nil_r. by apply Hfail. }
    apply spec_bind, spec_call.
    destruct (bdist_wheel_write_wheelfile C d (fs w1)) as [f2 [[]|e]]; simpl.
    2: { apply Hfail. by rewrite forallb_app, Hevs. }
    apply spec_bind, spec_call. simpl.
    destruct (build_ext_run C true f2) as [f3 [[]|e]]; simpl.
    2: { apply Hfail. by rewrite forallb_app, Hevs. }
    apply spec_bind.
    eapply spec_mono; [|apply (Hgo (evs ++ [EvWriteWheelfile d; EvBuildExt true]));
                          [by rewrite forallb_app, Hevs|done..]].
    intros n2 w2 r HQ. simpl in *. rewrite <- !app_assoc in HQ. simpl in HQ.
    destruct r as [p|e]; [|done].
    apply spec_ret. by rewrite app_nil_r. }
  unfold _ensure_dist_info. destruct (dist_info_dir self) as [d|] eqn:Hd.
  - destruct (Str.endswith d ".dist-info"); simpl; [|by apply spec_raise, Hfail].
    apply spec_bind, spec_look.
    destruct (FS.exists_ (fs w) (Path [d; "METADATA"])); [|by apply spec_raise, Hfail].
    apply spec_ret. simpl. by apply (Hafter []).
  - apply spec_bind, spec_call.
    destruct (dist_info_run C (dist_dir self) (fs w)) as [f1 [d|e]]; simpl; [|by apply Hfail].
    apply spec_ret. by apply (Hafter [EvDistInfo (dist_dir self)]).
Qed.

(** The same rule, with what the preparation keeps: a property of the
    file system that the three commands preserve holds when the
    preparation is over, at a failure as well. *)
Lemma run_inv_rule self w (I : gmap path node → Prop) Q :
  I (fs w) →
  (∀ f, I f → I (dist_info_run C (dist_dir self) f).1) →
  (∀ d f, I f → I (bdist_wheel_write_wheelfile C d f).1) →
  (∀ f, I f → I (build_ext_run C true f).1) →
  (∀ evs w1 e, forallb is_preparation evs = true → I (fs w1) → Q evs w1 (Raise e)) →
  (∀ evs w1 self', forallb is_preparation evs = true → I (fs w1) →
     distribution self' = distribution self → dist_dir self' = dist_dir self →
     project_dir self' = project_dir self →
     spec (_create_wheel_file E C self') w1
       (λ n2 w2 r, Q (evs ++ n2) w2
          match r with Return _ => Return None | Raise e => Raise e end)) →
  spec (run E C self) w Q.
Proof.
  intros Hw Hdi Hww Hbe Hfail Hgo. unfold run. apply spec_bind.
  assert (Hafter : ∀ evs w1 self',
    forallb is_preparation evs = true → I (fs w1) →
    distribution self' = distribution self → dist_dir self' = dist_dir self →
    project_dir self' = project_dir self →
    spec (match dist_info_dir self' with
          | None => raise TypeError
          | Some d =>
              call (λ _, EvWriteWheelfile d) (bdist_wheel_write_wheelfile C d) ;;
              call (λ _, EvBuildExt true) (build_ext_run C true) ;;
              _create_wheel_file E C self' ;;
              ret None
          end) w1 (λ n2, Q (evs ++ n2))).
  { intros evs w1 self' Hevs HI H1 H2 H3.
    destruct (dist_info_dir self') as [d|].
    2: { apply spec_raise. rewrite app_nil_r. by apply Hfail. }
    apply spec_bind, spec_call.
    pose proof (Hww d _ HI) as HI2.
    destruct (bdist_wheel_write_wheelfile C d (fs w1)) as [f2 [[]|e]]; simpl in *.
    2: { apply Hfail; [by rewrite forallb_app, Hevs|done]. }
    apply spec_bind, spec_call. simpl.
    pose proof (Hbe _ HI2) as HI3.
    destruct (build_ext_run C true f2) as [f3 [[]|e]]; simpl in *.
    2: { apply Hfail; [by rewrite forallb_app, Hevs|done]. }
    apply spec_bind.
    eapply spec_mono; [|apply (Hgo (evs ++ [EvWriteWheelfile d; EvBuildExt true]));
                          [by rewrite forallb_app, Hevs|done..]].
    intros n2 w2 r HQ. simpl in *. rewrite <- !app_assoc in HQ. simpl in HQ.
    destruct r as [p|e]; [|done].
    apply spec_ret. by rewrite app_nil_r. }
  unfold _ensure_dist_info. destruct (dist_info_dir self) as [d|] eqn:Hd.
  - destruct (Str.endswith d ".dist-info"); simpl; [|by apply spec_raise, Hfail].
    apply spec_bind, spec_look.
    destruct (FS.exists_ (fs w) (Path [d; "METADATA"])); [|by apply spec_raise, Hfail].
    apply spec_ret. simpl. by apply (Hafter []).
  - apply spec_bind, spec_call.
    pose proof (Hdi _ Hw) as HI1.
    destruct (dist_info_run C (dist_dir self) (fs w)) as [f1 [d|e]]; simpl in *;
      [|by apply Hfail].
    apply spec_ret. by apply (Hafter [EvDistInfo (dist_dir self)]).
Qed.

Lemma target_congr self self' :
  distribution self' = distribution self → project_dir self' = project_dir self →
  target E self' = target E self.
Proof. intros Hd Hp. unfold target. by rewrite Hd, Hp. Qed.

Lemma namespace_call_congr self self' tmp :
  distribution self' = distribution self → project_dir self' = project_dir self →
  namespace_call E C self' tmp = namespace_call E C self tmp.
Proof. intros Hd Hp. unfold namespace_call. by rewrite (target_congr _ _ Hd Hp), Hd. Qed.

Lemma namespace_step_congr self self' tmp f :
  distribution self' = distribution self → project_dir self' = project_dir self →
  namespace_step E C self' tmp f = namespace_step E C self tmp f.
Proof. intros Hd Hp. unfold namespace_step. by rewrite (target_congr _ _ Hd Hp), Hd. Qed.

Lemma wheel_path_of_congr self self' :
  dist_dir self' = dist_dir self → wheel_path_of C self' = wheel_path_of C self.
Proof. intros Hd. unfold wheel_path_of. by rewrite Hd. Qed.

Lemma preparation_no_write_files evs wp base found :
  forallb is_preparation evs = true → EvWriteFiles wp base found ∈ evs → False.
Proof.
  intros Hall Hin. rewrite forallb_forall in Hall.
  apply list_elem_of_In, Hall in Hin. done.
Qed.

Lemma preparation_not_write_files evs :
  forallb is_preparation evs = true → existsb is_write_files evs = false.
Proof.
  induction evs as [|ev evs IH]; [done|]. simpl.
  intros [Hev Hall]%andb_true_iff. rewrite (IH Hall). by destruct ev.
Qed.

(** When [_create_wheel_file] is over, nothing is left of the staging
    directory it made. *)
Lemma staging_removed_spec self w :
  spec (_create_wheel_file E C self) w (λ new w' _,
    ∀ tmp p, EvMkdtemp tmp ∈ new → Path [tmp] `prefix_of` p → FS.exists_ (fs w') p = false).
Proof.
  apply create_wheel_file_rule.
  - by intros _ tmp p ?%elem_of_nil.
  - by intros e _ _ tmp p ?%elem_of_nil.
  - intros f1 Hx Hfr. split; [by intros _ tmp p ?%elem_of_nil|].
    intros n evs f' r Hn Hxt Hs tmp p [Heq|Hev]%elem_of_cons Hp.
    + simplify_eq. simpl. apply exists_remove_tree_under; [|done].
      by eapply exists_false_not_anchor.
    + destruct (staged_elem _ _ _ _ _ _ _ _ _ Hs Hev) as [Hns|(f3 & f4 & _ & _ & Heq & _)];
        [|done].
      by apply namespace_call_elem in Hns as [_ ?].
Qed.

Lemma preparation_no_mkdtemp evs tmp :
  forallb is_preparation evs = true → EvMkdtemp tmp ∈ evs → False.
Proof.
  intros Hall Hin. rewrite forallb_forall in Hall.
  apply list_elem_of_In, Hall in Hin. done.
Qed.

Lemma staging_apart_elem self n :
  staging_apart E C self = true → n ∈ candidate_names E →
  ¬ Path [staging_dir E C n] `prefix_of` wheel_path_of C self.
Proof.
  unfold staging_apart. rewrite forallb_forall. intros Hall Hn%list_elem_of_In.
  apply Hall in Hn. apply negb_true_iff in Hn. by apply bool_decide_eq_false in Hn.
Qed.

(** The archive path along [_create_wheel_file], under the assumptions on
    the surroundings: the archive writer finds nothing at the path, what
    is at the path in the end is what the writer left, and when the writer
    is not reached the build fails and the path holds what it held before
    or nothing. *)
Lemma archive_path_spec self w :
  staging_apart E C self = true → installer_keeps E C self →
  spec (_create_wheel_file E C self) w (λ new w' r,
    (∀ wp base found, EvWriteFiles wp base found ∈ new →
       wp = wheel_path_of C self ∧
       FS.exists_ found (wheel_path_of C self) = false ∧
       FS.stat (fs w') (wheel_path_of C self)
       = FS.stat (WheelFile_write_files C wp base found).1 (wheel_path_of C self)) ∧
    (existsb is_write_files new = false →
       (FS.stat (fs w') (wheel_path_of C self) = FS.stat (fs w) (wheel_path_of C self) ∨
        FS.stat (fs w') (wheel_path_of C self) = None) ∧
       ∃ e, r = Raise e)).
Proof.
  intros Hapart Hkeeps. apply create_wheel_file_rule.
  - intros Hd. split; [by intros wp base found ?%elem_of_nil|].
    intros _. split; [by left|by eexists].
  - intros e _ _. split; [by intros wp base found ?%elem_of_nil|].
    intros _. split; [by left|by eexists].
  - intros f1 Hx Hfr.
    split.
    { intros e. split; [by intros wp base found ?%elem_of_nil|].
      intros _. split; [right; by apply exists_false_stat|by eexists]. }
    intros n evs f' r Hn Hxt Hs.
    pose proof (staging_apart_elem _ _ Hapart Hn) as Hnot.
    assert (Hout : ∀ f3, outside (staging_dir E C n) f1 f3 →
                         FS.exists_ f3 (wheel_path_of C self) = false).
    { intros f3 Ho. unfold FS.exists_. rewrite (Ho _ Hnot). exact Hx. }
    split.
    + intros wp base found [Heq|Hev]%elem_of_cons; [done|].
      destruct (staged_elem _ _ _ _ _ _ _ _ _ Hs Hev)
        as [Hns|(f3 & f4 & Ho & Hstep & Heq & Hf' & _)].
      { by apply namespace_call_elem in Hns as [_ ?]. }
      simplify_eq. split; [done|]. split.
      * pose proof (Hkeeps n f3 Hn (Hout _ Ho)) as Hk. rewrite Hstep in Hk. simpl in Hk.
        unfold FS.exists_, with_redirect in *. rewrite stat_insert_ne; [done|].
        intros Heq. apply Hnot. rewrite <- Heq.
        apply Path_pair_prefix, pth_name_relative.
      * simpl. by apply stat_remove_tree_out.
    + intros Hnw. simpl in Hnw.
      split.
      * right. simpl. rewrite stat_remove_tree_out by done.
        apply exists_false_stat.
        destruct Hs as [f3 e Ho|f3 f4 e Ho Hstep|f3 f4 f5 e Ho Hstep Ho5|f3 f4 Ho Hstep].
        -- by apply Hout.
        -- pose proof (Hkeeps n f3 Hn (Hout _ Ho)) as Hk. by rewrite Hstep in Hk.
        -- pose proof (Hkeeps n f3 Hn (Hout _ Ho)) as Hk. rewrite Hstep in Hk.
           unfold FS.exists_ in *. by rewrite (Ho5 _ Hnot).
        -- rewrite existsb_app in Hnw. simpl in Hnw. by rewrite orb_true_r in Hnw.
      * destruct Hs; try by eexists.
        rewrite existsb_app in Hnw. simpl in Hnw. by rewrite orb_true_r in Hnw.
Qed.

(** The same along [run], the preparation leaving the archive path as it
    is. *)
Lemma run_archive_path_spec self w :
  staging_apart E C self = true → installer_keeps E C self → preparation_keeps C self →
  spec (run E C self) w (λ new w' r,
    (∀ wp base found, EvWriteFiles wp base found ∈ new →
       FS.stat (fs w') (wheel_path_of C self)
       = FS.stat (WheelFile_write_files C wp base found).1 (wheel_path_of C self)) ∧
    (existsb is_write_files new = false →
       (FS.stat (fs w') (wheel_path_of C self) = FS.stat (fs w) (wheel_path_of C self) ∨
        FS.stat (fs w') (wheel_path_of C self) = None) ∧
       ∃ e, r = Raise e)).
Proof.
  intros Hapart Hkeeps Hprep.
  apply (run_inv_rule self w
    (λ f, FS.stat f (wheel_path_of C self) = FS.stat (fs w) (wheel_path_of C self))).
  - done.
  - intros f Hf. destruct (Hprep f) as (-> & _ & _). done.
  - intros d f Hf. destruct (Hprep f) as (_ & Hw & _). by rewrite Hw.
  - intros f Hf. destruct (Hprep f) as (_ & _ & ->). done.
  - intros evs w1 e Hevs HI. split.
    + intros wp base found Hin. by destruct (preparation_no_write_files _ _ _ _ Hevs Hin).
    + intros _. split; [by left|by eexists].
  - intros evs w1 self' Hevs HI H1 H2 H3.
    assert (Hwp : wheel_path_of C self' = wheel_path_of C self) by by apply wheel_path_of_congr.
    assert (Hapart' : staging_apart E C self' = true).
    { unfold staging_apart in *. by rewrite Hwp. }
    assert (Hkeeps' : installer_keeps E C self').
    { intros n f Hn Hx. rewrite Hwp in *.
      rewrite (namespace_step_congr self self') by done. by apply Hkeeps. }
    eapply spec_mono; [|apply (archive_path_spec self' w1 Hapart' Hkeeps')].
    intros new w2 r [Hev Hno]. rewrite Hwp in *. split.
    + intros wp base found [Hin|Hin]%elem_of_app.
      { by destruct (preparation_no_write_files _ _ _ _ Hevs Hin). }
      by apply Hev in Hin as (_ & _ & ?).
    + rewrite existsb_app, (preparation_not_write_files _ Hevs). simpl. intros Hnw.
      destruct (Hno Hnw) as [Hst [e ->]]. split; [|by eexists].
      rewrite HI in Hst. exact Hst.
Qed.

End RunFacts.

(** * The claims *)

Section Claims.

Variable E : Env.
Variable C : Collaborators.

(** C1. The redirect file: [_populate_wheel] writes the file
    [__editable__.{name}.pth] of the staging directory, and its content is
    the target path followed by a newline and nothing else; when the name
    holds no separator the file is an entry of the staging directory
    itself.  In [_create_wheel_file] the archive writer is called on a file
    system that holds this file with this content, and a build that
    returns has called it. *)
Theorem C1_redirect_file (self : editable_wheel) (w : world) :
  (∀ dist_id dir w',
     _populate_wheel E self dist_id dir w = (w', Return tt) →
     fs w' !! Path [dir; pth_name dist_id] = Some (File (target E self +:+ newline))) ∧
  (∀ dir dist_id, pth_name dist_id = "__editable__." +:+ dist_id +:+ ".pth" ∧
     (Str.has_sep dist_id = false →
      Path [dir; pth_name dist_id] = Path [dir] ++ [pth_name dist_id])) ∧
  (∀ wp base found,
     EvWriteFiles wp base found ∈ since w (_create_wheel_file E C self w).1 →
     found !! Path [base; pth_name (dist_info_name C)]
     = Some (File (target E self +:+ newline))) ∧
  (∀ p w', _create_wheel_file E C self w = (w', Return p) →
     ∃ base found, EvWriteFiles p base found ∈ since w w').
Proof.
  split; [|split; [|split]].
  - intros dist_id dir w'. unfold _populate_wheel.
    intros Heq.
    assert (H : spec (Os.Path_write_text E (Path [dir; pth_name dist_id])
                        (target E self +:+ newline)) w
                  (λ _ w' r, r = Return tt →
                     fs w' !! Path [dir; pth_name dist_id]
                     = Some (File (target E self +:+ newline)))).
    { apply write_text_rule; [done..|]. intros _ _. apply lookup_insert_eq. }
    apply spec_elim in H. rewrite Heq in H. by apply H.
  - intros dir dist_id. split; [done|]. intros Hs.
    apply Path_child; [by apply pth_name_no_sep|apply pth_name_proper..].
  - apply (spec_elim (_create_wheel_file E C self) w
      (λ new _ _, ∀ wp base found, EvWriteFiles wp base found ∈ new → _)).
    apply create_wheel_file_rule.
    + by intros _ wp base found ?%elem_of_nil.
    + by intros e _ _ wp base found ?%elem_of_nil.
    + intros f1 Hx Hfr. split; [by intros _ wp base found ?%elem_of_nil|].
      intros n evs f' r Hn Hxt Hs wp base found [Heq|Hev]%elem_of_cons; [done|].
      destruct (staged_elem _ _ _ _ _ _ _ _ _ Hs Hev) as [Hns|(f3 & f4 & _ & _ & Heq & _)].
      * by apply namespace_call_elem in Hns as [_ ?].
      * simplify_eq. apply lookup_insert_eq.
  - intros p w' Heq.
    pose proof (spec_elim (_create_wheel_file E C self) w
      (λ new _ r, ∀ p, r = Return p → ∃ base found, EvWriteFiles p base found ∈ new)) as H.
    rewrite Heq in H. apply H; [|done].
    apply create_wheel_file_rule; [done..|].
    intros f1 Hx Hfr. split; [done|].
    intros n evs f' r Hn Hxt Hs q Hr. destruct r as [u|e]; [|done]. simplify_eq.
    destruct (staged_returns _ _ _ _ _ _ _ _ Hs) as [found Hf].
    exists (staging_dir E C n), found. by right.
Qed.

(** What [_create_wheel_file] returns is the archive path, and it returns
    only after the archive writer was called for that path. *)
Lemma returns_spec (self : editable_wheel) (w : world) :
  spec (_create_wheel_file E C self) w (λ new _ r,
    (∀ wp base found, EvWriteFiles wp base found ∈ new →
       wp = wheel_path_of C self ∧ EvMkdtemp base ∈ new) ∧
    (∀ p, r = Return p →
       p = wheel_path_of C self ∧ ∃ base found, EvWriteFiles p base found ∈ new)).
Proof.
  apply create_wheel_file_rule.
  - intros _. split; [by intros wp base found ?%elem_of_nil|done].
  - intros e _ _. split; [by intros wp base found ?%elem_of_nil|done].
  - intros f1 Hx Hfr. split; [split; [by intros wp base found ?%elem_of_nil|done]|].
    intros n evs f' r Hn Hxt Hs. split.
    + intros wp base found [Heq|Hev]%elem_of_cons; [done|].
      destruct (staged_elem _ _ _ _ _ _ _ _ _ Hs Hev) as [Hns|(f3 & f4 & _ & _ & Heq & _)].
      * by apply namespace_call_elem in Hns as [_ ?].
      * simplify_eq. split; [done|by left].
    + intros p Hr. destruct r as [u|e]; [|done]. simplify_eq. split; [done|].
      destruct (staged_returns _ _ _ _ _ _ _ _ Hs) as [found Hf].
      exists (staging_dir E C n), found. by right.
Qed.

(** C2. The archive path is [Path(dist_dir, archive_name)], where the
    archive name is the distribution name, the build tag and the tag joined
    by hyphens, with the suffix [.whl]; the build tag is the constant
    [0.editable], which starts with a digit.  It is the path that
    [_create_wheel_file] returns and the path the archive writer is called
    with; when the output directory is a path object and the archive name
    holds no separator, it is the entry of that name in the output
    directory. *)
Theorem C2_archive_path (self : editable_wheel) (w : world) :
  build_tag = "0.editable" ∧ Str.starts_with_digit build_tag = true ∧
  archive_name C = dist_info_name C +:+ "-" +:+ build_tag +:+ "-" +:+
                   Str.join "-" (bdist_wheel_get_tag C) +:+ ".whl" ∧
  wheel_path_of C self = Path_of (dist_dir self) [archive_name C] ∧
  (∀ p w', _create_wheel_file E C self w = (w', Return p) → p = wheel_path_of C self) ∧
  (∀ wp base found,
     EvWriteFiles wp base found ∈ since w (_create_wheel_file E C self w).1 →
     wp = wheel_path_of C self) ∧
  (∀ args, dist_dir self = Path args → Str.has_sep (archive_name C) = false →
     wheel_path_of C self = dist_dir self ++ [archive_name C]).
Proof.
  pose proof (spec_elim _ _ _ (returns_spec self w)) as [Hev Hret].
  repeat split; try done.
  - intros p w' Heq. rewrite Heq in Hret. by apply Hret.
  - intros wp base found Hin. by apply Hev in Hin as [? _].
  - intros args Hd Hs. unfold wheel_path_of. rewrite Hd.
    apply Path_of_Path_child; [done|apply archive_name_proper..].
Qed.

(** C3. A supplied dist-info directory is checked: when its name does not
    end with [.dist-info], or it holds no [METADATA], [_ensure_dist_info]
    raises [AssertionError] and so does [run], the world being as it was
    (no call was made, nothing was written); when both checks pass,
    [_ensure_dist_info] returns the command as it was, the supplied
    directory with it. *)
Theorem C3_dist_info_validation (self : editable_wheel) (d : string) (w : world) :
  dist_info_dir self = Some d →
  dist_info_valid d (fs w)
  = Str.endswith d ".dist-info" && FS.exists_ (fs w) (Path [d; "METADATA"]) ∧
  _ensure_dist_info C self w
  = (w, if dist_info_valid d (fs w) then Return self else Raise AssertionError) ∧
  (dist_info_valid d (fs w) = false → run E C self w = (w, Raise AssertionError)).
Proof.
  intros Hd. split; [done|]. split; [by apply ensure_dist_info_eq|].
  intros Hv. unfold run, bind. by rewrite (ensure_dist_info_eq C self d w Hd), Hv.
Qed.

(** C4. When [_create_wheel_file] is over, whether it returned or raised,
    nothing exists at or below the staging directory it made; the same
    holds when [run] is over.  The directory the archive writer is given
    is a staging directory made by the same call. *)
Theorem C4_staging_directory_removed (self : editable_wheel) (w : world) :
  (∀ tmp p, EvMkdtemp tmp ∈ since w (_create_wheel_file E C self w).1 →
     Path [tmp] `prefix_of` p →
     FS.exists_ (fs (_create_wheel_file E C self w).1) p = false) ∧
  (∀ tmp p, EvMkdtemp tmp ∈ since w (run E C self w).1 →
     Path [tmp] `prefix_of` p →
     FS.exists_ (fs (run E C self w).1) p = false) ∧
  (∀ wp base found,
     EvWriteFiles wp base found ∈ since w (_create_wheel_file E C self w).1 →
     EvMkdtemp base ∈ since w (_create_wheel_file E C self w).1).
Proof.
  split; [|split].
  - apply (spec_elim _ _ _ (staging_removed_spec E C self w)).
  - apply (spec_elim (run E C self) w
      (λ new w' _, ∀ tmp p, EvMkdtemp tmp ∈ new → Path [tmp] `prefix_of` p →
                            FS.exists_ (fs w') p = false)).
    apply run_rule.
    + intros evs w1 e Hevs tmp p Hin. by destruct (preparation_no_mkdtemp _ _ Hevs Hin).
    + intros evs w1 self' Hevs _ _ _.
      eapply spec_mono; [|apply staging_removed_spec].
      intros new w' r H tmp p [Hin|Hin]%elem_of_app; [|by apply H].
      by destruct (preparation_no_mkdtemp _ _ Hevs Hin).
  - intros wp base found Hin.
    by apply (spec_elim _ _ _ (returns_spec self w)) in Hin as [_ ?].
Qed.

(** C5, as amended.  Under the assumptions on the surroundings, a build
    that fails before the archive writer is called, at whatever step (the
    [dist_info], [write_wheelfile] or [build_ext] command, the removal of
    the earlier archive, the staging directory, the copy, the namespace
    installer, the redirect file), has written nothing at the archive
    path: the path holds what it held before the build, or nothing.  A
    build that does not reach the archive writer fails.  Once the archive
    writer is called, what is at the archive path when the build is over
    is what the writer left there, whether it returned or raised: the
    staging directory does not shield the archive path from a writer that
    fails.  The same holds of [_create_wheel_file] alone. *)
Theorem C5_failure_and_archive_path (self : editable_wheel) (w : world) :
  staging_apart E C self = true → installer_keeps E C self → preparation_keeps C self →
  (existsb is_write_files (since w (run E C self w).1) = false →
     (FS.stat (fs (run E C self w).1) (wheel_path_of C self)
      = FS.stat (fs w) (wheel_path_of C self) ∨
      FS.stat (fs (run E C self w).1) (wheel_path_of C self) = None) ∧
     ∃ e, (run E C self w).2 = Raise e) ∧
  (existsb is_write_files (since w (_create_wheel_file E C self w).1) = false →
     (FS.stat (fs (_create_wheel_file E C self w).1) (wheel_path_of C self)
      = FS.stat (fs w) (wheel_path_of C self) ∨
      FS.stat (fs (_create_wheel_file E C self w).1) (wheel_path_of C self) = None) ∧
     ∃ e, (_create_wheel_file E C self w).2 = Raise e) ∧
  (∀ wp base found,
     EvWriteFiles wp base found ∈ since w (run E C self w).1 →
     FS.stat (fs (run E C self w).1) (wheel_path_of C self)
     = FS.stat (WheelFile_write_files C wp base found).1 (wheel_path_of C self)) ∧
  (∀ wp base found,
     EvWriteFiles wp base found ∈ since w (_create_wheel_file E C self w).1 →
     FS.stat (fs (_create_wheel_file E C self w).1) (wheel_path_of C self)
     = FS.stat (WheelFile_write_files C wp base found).1 (wheel_path_of C self)).
Proof.
  intros Ha Hk Hp.
  pose proof (spec_elim _ _ _ (archive_path_spec E C self w Ha Hk)) as [Hev Hno].
  pose proof (spec_elim _ _ _ (run_archive_path_spec E C self w Ha Hk Hp)) as [Hrev Hrno].
  split; [done|]. split; [done|]. split; [done|].
  intros wp base found Hin. by apply Hev in Hin as (_ & _ & ?).
Qed.

(** C6, as amended.  [_create_wheel_file] returns the archive path, after
    the archive writer was called for it.  [run] does not pass the path
    on: when it returns, its value is [None], and the archive writer was
    called for the archive path of the command. *)
Theorem C6_return_values (self : editable_wheel) (w : world) :
  (∀ p w', _create_wheel_file E C self w = (w', Return p) →
     p = wheel_path_of C self ∧ ∃ base found, EvWriteFiles p base found ∈ since w w') ∧
  (∀ v w', run E C self w = (w', Return v) →
     v = None ∧ ∃ base found, EvWriteFiles (wheel_path_of C self) base found ∈ since w w').
Proof.
  split.
  - intros p w' Heq.
    pose proof (spec_elim _ _ _ (returns_spec self w)) as [_ Hret].
    rewrite Heq in Hret. by apply Hret.
  - intros v w' Heq.
    pose proof (spec_elim (run E C self) w
      (λ new _ r, ∀ v, r = Return v →
         v = None ∧ ∃ base found, EvWriteFiles (wheel_path_of C self) base found ∈ new)) as H.
    rewrite Heq in H. apply H; [|done].
    apply run_rule; [done|].
    intros evs w1 self' Hevs _ Hdd _.
    eapply spec_mono; [|apply returns_spec].
    intros new w2 r [_ Hret] v' Hr. destruct r as [p|e]; [|done]. simplify_eq.
    split; [done|]. destruct (Hret p eq_refl) as [-> (base & found & Hin)].
    exists base, found. apply elem_of_app. right.
    unfold wheel_path_of in *. by rewrite <- Hdd.
Qed.

(** C7, as amended.  The target is the normalization of the directory the
    package-directory mapping gives for the empty key, when there is one
    and it is not the empty string, and of the project directory
    otherwise; the normalization is [normcase] of [realpath] of [normpath],
    on the absolute path under Cygwin. *)
Theorem C7_target (self : editable_wheel) :
  (∀ pd v, package_dir (distribution self) = Some pd → pd !! "" = Some v → v ≠ "" →
     target E self = _normalize_path E v) ∧
  (package_dir (distribution self) = None ∨
   (∃ pd, package_dir (distribution self) = Some pd ∧ (pd !! "" = None ∨ pd !! "" = Some "")) →
     target E self = _normalize_path E (project_dir self)) ∧
  (∀ filename, _normalize_path E filename
     = os_path_normcase E (os_path_realpath E (os_path_normpath E
         (if String.eqb (sys_platform E) "cygwin" then os_path_abspath E filename
          else filename)))).
Proof.
  split; [|split; [|done]].
  - intros pd v Hpd Hv Hne. unfold target. rewrite Hpd. simpl. rewrite Hv. simpl.
    destruct (String.eqb_spec v ""); [done|done].
  - intros [Hpd|(pd & Hpd & [Hv|Hv])]; unfold target; rewrite Hpd; simpl.
    + by rewrite lookup_empty.
    + by rewrite Hv.
    + by rewrite Hv.
Qed.

(** C8. [_install_namespaces] calls the namespace installer exactly when
    the distribution declares namespace packages, and then once, with the
    target [os.path.join(installation_dir, pth_prefix)] and the root
    [repr(target)]; otherwise it returns and leaves the world as it was.
    The two values are what [_get_target] and [_get_root] answer.  In
    [_create_wheel_file] the installation directory is the staging
    directory and the prefix is the name of the distribution: a call to
    the installer is made only when namespace packages are declared; by
    the time the archive writer is called, the calls to the installer are
    that one call when namespace packages are declared and none otherwise;
    and a build that returns, the distribution declaring namespace
    packages, has called the installer for its staging directory. *)
Theorem C8_namespace_installer (self : editable_wheel) (w : world) :
  (∀ dir pth_prefix,
     since w (_install_namespaces E C self dir pth_prefix w).1
     = if declares_namespaces (distribution self)
       then [EvInstallNamespaces (default [] (namespace_packages (distribution self)))
               (os_path_join dir pth_prefix) (repr E (target E self))]
       else []) ∧
  (∀ dir pth_prefix, declares_namespaces (distribution self) = false →
     _install_namespaces E C self dir pth_prefix w = (w, Return tt)) ∧
  (∀ dist dir name root,
     _get_target (_NamespaceInstaller__init__ dist dir name root) = os_path_join dir name ∧
     _get_root E (_NamespaceInstaller__init__ dist dir name root) = repr E root) ∧
  (∀ nsp t r,
     EvInstallNamespaces nsp t r ∈ since w (_create_wheel_file E C self w).1 →
     declares_namespaces (distribution self) = true ∧
     r = repr E (target E self) ∧
     ∃ tmp, EvMkdtemp tmp ∈ since w (_create_wheel_file E C self w).1 ∧
            t = os_path_join tmp (dist_info_name C)) ∧
  (∀ wp base found,
     EvWriteFiles wp base found ∈ since w (_create_wheel_file E C self w).1 →
     installer_calls (since w (_create_wheel_file E C self w).1)
     = if declares_namespaces (distribution self)
       then [EvInstallNamespaces (default [] (namespace_packages (distribution self)))
               (os_path_join base (dist_info_name C)) (repr E (target E self))]
       else []) ∧
  (∀ p w', _create_wheel_file E C self w = (w', Return p) →
     declares_namespaces (distribution self) = true →
     ∃ tmp, EvMkdtemp tmp ∈ since w w' ∧
            EvInstallNamespaces (default [] (namespace_packages (distribution self)))
              (os_path_join tmp (dist_info_name C)) (repr E (target E self))
            ∈ since w w').
Proof.
  assert (Hcalls : spec (_create_wheel_file E C self) w (λ new _ _,
    ∀ wp base found, EvWriteFiles wp base found ∈ new →
      installer_calls new = namespace_call E C self base)).
  { apply create_wheel_file_rule.
    - by intros _ wp base found ?%elem_of_nil.
    - by intros e _ _ wp base found ?%elem_of_nil.
    - intros f1 Hx Hfr. split; [by intros _ wp base found ?%elem_of_nil|].
      intros n evs f' r0 Hn Hxt Hs wp base found [Heq|Hev]%elem_of_cons; [done|].
      assert (Hno : ∀ tmp, EvWriteFiles wp base found ∈ namespace_call E C self tmp → False).
      { intros tmp Hns. by apply namespace_call_elem in Hns as [_ ?]. }
      destruct Hs as [f3 e Ho|f3 f4 e Ho Hst|f3 f4 f5 e Ho Hst Ho5|f3 f4 Ho Hst].
      + by apply elem_of_nil in Hev.
      + by destruct (Hno _ Hev).
      + by destruct (Hno _ Hev).
      + apply elem_of_app in Hev as [Hev|Hev]; [by destruct (Hno _ Hev)|].
        apply list_elem_of_singleton in Hev. simplify_eq.
        unfold installer_calls, namespace_call. simpl.
        destruct (declares_namespaces (distribution self)); done. }
  split; [|split; [|split; [done|split; [|split]]]].
  - intros dir pth_prefix. unfold _install_namespaces.
    destruct (declares_namespaces (distribution self)); simpl.
    + unfold install_namespaces, call. simpl.
      destruct (Installer_install_namespaces _ _ _ _ _). simpl.
      by apply since_app.
    + unfold ret. simpl. apply since_app. by rewrite app_nil_r.
  - intros dir pth_prefix Hd. unfold _install_namespaces. by rewrite Hd.
  - apply (spec_elim (_create_wheel_file E C self) w
      (λ new _ _, ∀ nsp t r, EvInstallNamespaces nsp t r ∈ new →
         declares_namespaces (distribution self) = true ∧ r = repr E (target E self) ∧
         ∃ tmp, EvMkdtemp tmp ∈ new ∧ t = os_path_join tmp (dist_info_name C))).
    apply create_wheel_file_rule.
    + by intros _ nsp t r ?%elem_of_nil.
    + by intros e _ _ nsp t r ?%elem_of_nil.
    + intros f1 Hx Hfr. split; [by intros _ nsp t r ?%elem_of_nil|].
      intros n evs f' r0 Hn Hxt Hs nsp t r [Heq|Hev]%elem_of_cons; [done|].
      destruct (staged_elem _ _ _ _ _ _ _ _ _ Hs Hev) as [Hns|(f3 & f4 & _ & _ & Heq & _)];
        [|done].
      apply namespace_call_elem in Hns as [Hd Heq]. simplify_eq.
      split; [done|]. split; [done|]. exists (staging_dir E C n). split; [by left|done].
  - intros wp base found Hin. by apply (spec_elim _ _ _ Hcalls) in Hin.
  - intros p w' Heq Hd.
    pose proof (spec_elim _ _ _ (returns_spec self w)) as [Hev Hret].
    pose proof (spec_elim _ _ _ Hcalls) as Hc.
    rewrite Heq in Hev, Hret, Hc. simpl in *.
    destruct (Hret p eq_refl) as [-> (base & found & Hin)].
    exists base. split; [by apply Hev in Hin as [_ ?]|].
    specialize (Hc _ _ _ Hin). unfold namespace_call in Hc. rewrite Hd in Hc.
    apply list_elem_of_In. eapply (proj1 (filter_In is_install_namespaces _ _)).
    unfold installer_calls in Hc. rewrite Hc. by left.
Qed.

(** C9. Under the assumptions on the surroundings, the archive writer is
    called on a file system in which nothing exists at the archive path:
    a file that was there has been removed.  When [_create_wheel_file]
    returns, what is at the archive path is what the writer, so called,
    left there. *)
Theorem C9_old_archive_removed (self : editable_wheel) (w : world) :
  staging_apart E C self = true → installer_keeps E C self →
  (∀ wp base found,
     EvWriteFiles wp base found ∈ since w (_create_wheel_file E C self w).1 →
     wp = wheel_path_of C self ∧ FS.exists_ found (wheel_path_of C self) = false) ∧
  (∀ p w', _create_wheel_file E C self w = (w', Return p) →
     ∃ base found,
       EvWriteFiles p base found ∈ since w w' ∧
       FS.exists_ found p = false ∧
       FS.stat (fs w') p = FS.stat (WheelFile_write_files C p base found).1 p).
Proof.
  intros Ha Hk.
  pose proof (spec_elim _ _ _ (archive_path_spec E C self w Ha Hk)) as [Hev _].
  split.
  - intros wp base found Hin. by apply Hev in Hin as (? & ? & _).
  - intros p w' Heq.
    pose proof (spec_elim _ _ _ (returns_spec self w)) as [_ Hret].
    rewrite Heq in Hev, Hret. simpl in *.
    destruct (Hret p eq_refl) as [-> (base & found & Hin)].
    exists base, found. split; [done|]. by apply Hev in Hin as (_ & ? & ?).
Qed.

End Claims.


(** * The claims on the concrete setting *)

Section DemoFacts.

Import Demo.

(** A computation whose outcome is known. *)
Lemma outcome_eq {A : Type} (c : M A) (w : world) (r : outcome A) :
  (c w).2 = r → c w = ((c w).1, r).
Proof. destruct (c w). simpl. by intros ->. Qed.

Lemma mkdtemp_elem (tmp : string) (l : list event) :
  existsb (λ ev, match ev with EvMkdtemp t => String.eqb t tmp | _ => false end) l = true →
  EvMkdtemp tmp ∈ l.
Proof.
  intros (ev & Hin & Hev)%existsb_exists. apply list_elem_of_In.
  destruct ev; try done. apply String.eqb_eq in Hev. by subst.
Qed.

Lemma installer_keeps_foo (wf : path → string → ext unit) (d : option string) :
  installer_keeps E0 (foo wf) (self_of dist_ns d).
Proof.
  intros n f ->%list_elem_of_singleton Hx.
  unfold namespace_step. simpl. unfold FS.exists_ in *.
  rewrite stat_insert_ne; [done|]. intros Heq. vm_compute in Heq. discriminate.
Qed.

Lemma installer_keeps_protected (wf : path → string → ext unit) (d : option string) :
  installer_keeps DemoFurther.E_protected (foo wf) (self_of dist_ns d).
Proof.
  intros n f ->%list_elem_of_singleton Hx.
  unfold namespace_step. simpl. unfold FS.exists_ in *.
  rewrite stat_insert_ne; [done|]. intros Heq. vm_compute in Heq. discriminate.
Qed.

Lemma preparation_keeps_foo (wf : path → string → ext unit) (dist : Distribution)
    (d : option string) :
  preparation_keeps (foo wf) (self_of dist d).
Proof.
  assert (Hwp : wheel_path_of (foo wf) (self_of dist d) = wheel0) by (vm_compute; reflexivity).
  intros f. rewrite Hwp. split; [|split].
  - simpl. unfold dist_info_run_foo. simpl.
    rewrite !stat_insert_ne; [done|..]; intros Heq; vm_compute in Heq; discriminate.
  - intros d'. simpl. unfold write_wheelfile_foo. simpl.
    rewrite stat_insert_ne; [done|].
    rewrite Path_child by done. unfold wheel0.
    intros Heq. change ["dist"; "foo-1.0-0.editable-py3-none-any.whl"]
      with (["dist"] ++ ["foo-1.0-0.editable-py3-none-any.whl"]) in Heq.
    by apply app_inj_tail in Heq as [_ ?].
  - done.
Qed.

(** The project [/proj] of the specification: the redirect file holds the
    project directory and a newline. *)
Example redirect_file_of_foo :
  fs (_populate_wheel E0 (self_of dist0 None) "foo-1.0" tmp0
        (World (<[Path [tmp0] := Dir]> disk0) [])).1
  !! Path [tmp0; pth_name "foo-1.0"]
  = Some (File ("/proj" +:+ newline)).
Proof. vm_compute. reflexivity. Qed.

End DemoFacts.

(** C5, as stated, fails: the archive writer works at the final path, and
    when it runs out of room there, [run] raises and the truncated archive
    stays at the archive path. *)
Lemma C5_truncated_archive_left :
  (run Demo.E0 Demo.C_full_disk (Demo.self_of Demo.dist0 None) Demo.w0).2
  = Raise (ExternalError "No space left on device") ∧
  wheel_path_of Demo.C_full_disk (Demo.self_of Demo.dist0 None) = Demo.wheel0 ∧
  FS.stat (fs (run Demo.E0 Demo.C_full_disk (Demo.self_of Demo.dist0 None) Demo.w0).1)
          Demo.wheel0
  = Some (File "PK (truncated)").
Proof. vm_compute. done. Qed.

(** C6, as stated, fails: a build that succeeds, the archive being at the
    archive path, returns [None] from [run], not the path. *)
Lemma C6_run_returns_None :
  (run Demo.E0 Demo.C0 (Demo.self_of Demo.dist0 None) Demo.w0).2 = Return None ∧
  wheel_path_of Demo.C0 (Demo.self_of Demo.dist0 None) = Demo.wheel0 ∧
  FS.is_file (fs (run Demo.E0 Demo.C0 (Demo.self_of Demo.dist0 None) Demo.w0).1) Demo.wheel0
  = true.
Proof. vm_compute. done. Qed.

(** C7, as stated, fails: with the root package mapped to the empty
    string the target is the project directory, [/srv/pkg] here, and not
    the normalization of the mapped directory, which is the working
    directory [/home/dev]. *)
Lemma C7_empty_root_mapping :
  package_dir (distribution Demo.self_root_empty) = Some {[ "" := "" ]} ∧
  target Demo.E_dev Demo.self_root_empty = "/srv/pkg" ∧
  _normalize_path Demo.E_dev "" = "/home/dev".
Proof. vm_compute. done. Qed.

(** C1 on the project [foo]: the build returns the archive path, and the
    archive writer was called. *)
Lemma C1_redirect_file_witness :
  ∃ base found,
    EvWriteFiles Demo.wheel0 base found
    ∈ since Demo.w1 (_create_wheel_file Demo.E0 Demo.C0 Demo.self1 Demo.w1).1.
Proof.
  destruct (C1_redirect_file Demo.E0 Demo.C0 Demo.self1 Demo.w1) as (_ & _ & _ & H).
  apply H, outcome_eq. vm_compute. reflexivity.
Defined.

(** C2 on the project [foo]: the path the build returns. *)
Lemma C2_archive_path_witness :
  Demo.wheel0 = wheel_path_of Demo.C0 Demo.self1.
Proof.
  destruct (C2_archive_path Demo.E0 Demo.C0 Demo.self1 Demo.w1) as (_ & _ & _ & _ & H & _).
  apply (H _ (_create_wheel_file Demo.E0 Demo.C0 Demo.self1 Demo.w1).1), outcome_eq.
  vm_compute. reflexivity.
Defined.

(** C3 on a supplied directory whose name lacks the suffix. *)
Lemma C3_dist_info_validation_witness :
  run Demo.E0 Demo.C0 (Demo.self_of Demo.dist0 (Some "dist/foo-1.0")) Demo.w1
  = (Demo.w1, Raise AssertionError).
Proof.
  apply (C3_dist_info_validation Demo.E0 Demo.C0
           (Demo.self_of Demo.dist0 (Some "dist/foo-1.0")) "dist/foo-1.0" Demo.w1 eq_refl).
  vm_compute. reflexivity.
Defined.

(** C4 on the project [foo]: after [run], the staging directory is gone. *)
Lemma C4_staging_directory_removed_witness :
  FS.exists_ (fs (run Demo.E0 Demo.C0 (Demo.self_of Demo.dist0 None) Demo.w0).1)
             (Path [Demo.tmp0]) = false.
Proof.
  destruct (C4_staging_directory_removed Demo.E0 Demo.C0 (Demo.self_of Demo.dist0 None) Demo.w0)
    as (_ & H & _).
  apply (H Demo.tmp0); [|reflexivity].
  apply mkdtemp_elem. vm_compute. reflexivity.
Defined.

(** C5, as amended, on a build that cannot remove the archive of an
    earlier build: [run] fails, and the archive path holds what it held. *)
Lemma C5_failure_and_archive_path_witness :
  (FS.stat (fs (run DemoFurther.E_protected Demo.C0 Demo.self1 Demo.w1).1)
           (wheel_path_of Demo.C0 Demo.self1)
   = FS.stat (fs Demo.w1) (wheel_path_of Demo.C0 Demo.self1) ∨
   FS.stat (fs (run DemoFurther.E_protected Demo.C0 Demo.self1 Demo.w1).1)
           (wheel_path_of Demo.C0 Demo.self1) = None) ∧
  ∃ e, (run DemoFurther.E_protected Demo.C0 Demo.self1 Demo.w1).2 = Raise e.
Proof.
  apply (C5_failure_and_archive_path DemoFurther.E_protected Demo.C0 Demo.self1 Demo.w1).
  - vm_compute. reflexivity.
  - apply installer_keeps_protected.
  - apply preparation_keeps_foo.
  - vm_compute. reflexivity.
Defined.

(** C6, as amended, on the project [foo]. *)
Lemma C6_return_values_witness :
  Demo.wheel0 = wheel_path_of Demo.C0 Demo.self1 ∧
  ∃ base found,
    EvWriteFiles Demo.wheel0 base found
    ∈ since Demo.w1 (_create_wheel_file Demo.E0 Demo.C0 Demo.self1 Demo.w1).1.
Proof.
  apply (C6_return_values Demo.E0 Demo.C0 Demo.self1 Demo.w1), outcome_eq.
  vm_compute. reflexivity.
Defined.

(** C7, as amended, on a root package mapped to [src]. *)
Lemma C7_target_witness :
  target Demo.E0 Demo.self1 = _normalize_path Demo.E0 "src".
Proof.
  apply (proj1 (C7_target Demo.E0 Demo.self1) {[ "" := "src" ]} "src").
  - reflexivity.
  - vm_compute. reflexivity.
  - discriminate.
Defined.

(** C8 on the project [foo], which declares the namespace package [ns]:
    the build returns, and the installer was called for the staging
    directory, with the name of the distribution and the target. *)
Lemma C8_namespace_installer_witness :
  ∃ tmp,
    EvMkdtemp tmp ∈ since Demo.w1 (_create_wheel_file Demo.E0 Demo.C0 Demo.self1 Demo.w1).1 ∧
    EvInstallNamespaces (default [] (namespace_packages (distribution Demo.self1)))
      (os_path_join tmp (dist_info_name Demo.C0)) (repr Demo.E0 (target Demo.E0 Demo.self1))
    ∈ since Demo.w1 (_create_wheel_file Demo.E0 Demo.C0 Demo.self1 Demo.w1).1.
Proof.
  destruct (C8_namespace_installer Demo.E0 Demo.C0 Demo.self1 Demo.w1)
    as (_ & _ & _ & _ & _ & H).
  apply (H Demo.wheel0).
  - apply outcome_eq. vm_compute. reflexivity.
  - reflexivity.
Defined.

(** C9 on the project [foo], an archive of an earlier build being at the
    archive path. *)
Lemma C9_old_archive_removed_witness :
  ∃ base found,
    EvWriteFiles Demo.wheel0 base found
    ∈ since Demo.w1 (_create_wheel_file Demo.E0 Demo.C0 Demo.self1 Demo.w1).1 ∧
    FS.exists_ found Demo.wheel0 = false ∧
    FS.stat (fs (_create_wheel_file Demo.E0 Demo.C0 Demo.self1 Demo.w1).1) Demo.wheel0
    = FS.stat (WheelFile_write_files Demo.C0 Demo.wheel0 base found).1 Demo.wheel0.
Proof.
  apply (C9_old_archive_removed Demo.E0 Demo.C0 Demo.self1 Demo.w1).
  - vm_compute. reflexivity.
  - apply installer_keeps_foo.
  - apply outcome_eq. vm_compute. reflexivity.
Defined.


(** * Further properties *)

Section Further.

Variable E : Env.
Variable C : Collaborators.

Implicit Types (self : editable_wheel) (w : world).

(** The calls of [_create_wheel_file] are a beginning of: the staging
    directory, the namespace installer if any, the archive writer; they are
    all of them when it returns. *)
Lemma create_calls_spec self w :
  spec (_create_wheel_file E C self) w (λ new _ r,
    ∃ tmp found,
      new `prefix_of` EvMkdtemp tmp :: namespace_call E C self tmp ++
                        [EvWriteFiles (wheel_path_of C self) tmp found] ∧
      (∀ p, r = Return p →
         new = EvMkdtemp tmp :: namespace_call E C self tmp ++
                 [EvWriteFiles (wheel_path_of C self) tmp found])).
Proof.
  apply create_wheel_file_rule.
  - intros _. exists "", ∅. split; [apply prefix_nil|done].
  - intros e _ _. exists "", ∅. split; [apply prefix_nil|done].
  - intros f1 Hx Hfr. split.
    { intros e. exists "", ∅. split; [apply prefix_nil|done]. }
    intros n evs f' r Hn Hxt Hs. exists (staging_dir E C n).
    destruct Hs as [f3 e Ho|f3 f4 e Ho Hst|f3 f4 e Ho Hst|f3 f4 Ho Hst].
    + exists ∅. split; [apply prefix_cons, prefix_nil|done].
    + exists ∅. split; [by apply prefix_cons, prefix_app_r|done].
    + exists ∅. split; [by apply prefix_cons, prefix_app_r|done].
    + eexists. split; [reflexivity|done].
Qed.

(** [run], call by call: the dist-info directory is checked or made, the
    wheel metadata is written, the extensions are built, and the archive
    is put together by [_create_wheel_file]; the first failure ends it. *)
Lemma run_course_rule self w Q :
  (∀ w1 e, Q [] w1 (Raise e)) →
  (∀ w1 e, dist_info_dir self = None → Q [EvDistInfo (dist_dir self)] w1 (Raise e)) →
  (∀ d gen w1 e, dist_info_source C self w d →
     gen = match dist_info_dir self with None => [EvDistInfo (dist_dir self)] | Some _ => [] end →
     Q (gen ++ [EvWriteWheelfile d]) w1 (Raise e) ∧
     Q (gen ++ [EvWriteWheelfile d; EvBuildExt true]) w1 (Raise e)) →
  (∀ d gen w1 self', dist_info_source C self w d →
     gen = match dist_info_dir self with None => [EvDistInfo (dist_dir self)] | Some _ => [] end →
     distribution self' = distribution self → dist_dir self' = dist_dir self →
     project_dir self' = project_dir self → dist_info_dir self' = Some d →
     spec (_create_wheel_file E C self') w1
       (λ n2 w2 r, Q (gen ++ [EvWriteWheelfile d; EvBuildExt true] ++ n2) w2
          match r with Return _ => Return None | Raise e => Raise e end)) →
  spec (run E C self) w Q.
Proof.
  intros Hval Hgen Hprep Hgo. unfold run. apply spec_bind.
  assert (Hafter : ∀ d gen w1 self',
    dist_info_source C self w d →
    gen = match dist_info_dir self with None => [EvDistInfo (dist_dir self)] | Some _ => [] end →
    distribution self' = distribution self → dist_dir self' = dist_dir self →
    project_dir self' = project_dir self → dist_info_dir self' = Some d →
    spec (match dist_info_dir self' with
          | None => raise TypeError
          | Some d =>
              call (λ _, EvWriteWheelfile d) (bdist_wheel_write_wheelfile C d) ;;
              call (λ _, EvBuildExt true) (build_ext_run C true) ;;
              _create_wheel_file E C self' ;;
              ret None
          end) w1 (λ n2, Q (gen ++ n2))).
  { intros d gen w1 self' Hsrc Hg H1 H2 H3 H4. rewrite H4.
    destruct (Hprep d gen w1 TypeError Hsrc Hg) as [_ _].
    apply spec_bind, spec_call.
    destruct (bdist_wheel_write_wheelfile C d (fs w1)) as [f2 [[]|e]]; simpl.
    2: { by apply Hprep. }
    apply spec_bind, spec_call. simpl.
    destruct (build_ext_run C true f2) as [f3 [[]|e]]; simpl.
    2: { by apply Hprep. }
    apply spec_bind.
    eapply spec_mono; [|by apply (Hgo d gen)].
    intros n2 w2 r HQ. simpl in *.
    destruct r as [p|e]; [|done].
    apply spec_ret. by rewrite app_nil_r. }
  unfold _ensure_dist_info. destruct (dist_info_dir self) as [d|] eqn:Hd.
  - destruct (Str.endswith d ".dist-info"); simpl; [|by apply spec_raise].
    apply spec_bind, spec_look.
    destruct (FS.exists_ (fs w) (Path [d; "METADATA"])); [|by apply spec_raise].
    apply spec_ret. simpl. apply (Hafter d []); try done. by left.
  - apply spec_bind, spec_call.
    destruct (dist_info_run C (dist_dir self) (fs w)) as [f1 [d|e]] eqn:Hrun; simpl;
      [|by apply Hgen].
    apply spec_ret. apply (Hafter d [EvDistInfo (dist_dir self)]); try done.
    right. by rewrite Hrun.
Qed.

(** X1. The calls of [run] follow one fixed sequence: whatever happens,
    the calls made are a beginning of the sequence [build_calls], and when
    [run] returns they are the whole of it, the dist-info directory being
    the one supplied or the one [dist_info] returned. *)
Theorem X1_calls_in_sequence self w :
  ∃ d tmp found,
    since w (run E C self w).1 `prefix_of` build_calls E C self d tmp found ∧
    (∀ v, (run E C self w).2 = Return v →
       since w (run E C self w).1 = build_calls E C self d tmp found ∧
       dist_info_source C self w d).
Proof.
  apply (spec_elim (run E C self) w (λ new _ r,
    ∃ d tmp found, new `prefix_of` build_calls E C self d tmp found ∧
      (∀ v, r = Return v → new = build_calls E C self d tmp found ∧
                           dist_info_source C self w d))).
  apply run_course_rule.
  - intros _ e. exists "", "", ∅. split; [apply prefix_nil|done].
  - intros _ e Hd. exists "", "", ∅. split; [|done].
    unfold build_calls. rewrite Hd. by apply prefix_app_r.
  - intros d gen w1 e Hsrc ->. split; exists d, "", ∅; (split; [|done]); unfold build_calls.
    + apply prefix_app, prefix_cons, prefix_nil.
    + apply prefix_app. do 2 apply prefix_cons. apply prefix_nil.
  - intros d gen w1 self' Hsrc -> H1 H2 H3 H4.
    eapply spec_mono; [|apply create_calls_spec].
    intros new w2 r (tmp & found & Hpre & Hret). exists d, tmp, found.
    rewrite (namespace_call_congr E C _ _ _ H1 H3), (wheel_path_of_congr C _ _ H2) in Hpre, Hret.
    unfold build_calls. split.
    + apply prefix_app. by do 2 apply prefix_cons.
    + intros v Hv. destruct r as [p|e]; [|done]. split; [|done].
      by rewrite (Hret p eq_refl).
Qed.

(** Once the archive writer is called, its outcome is the outcome of
    [_create_wheel_file]. *)
Lemma writer_decides_spec self w :
  spec (_create_wheel_file E C self) w (λ new _ r,
    ∀ wp base found, EvWriteFiles wp base found ∈ new →
      r = match (WheelFile_write_files C wp base found).2 with
          | Return _ => Return (wheel_path_of C self)
          | Raise e => Raise e
          end).
Proof.
  apply create_wheel_file_rule.
  - by intros _ wp base found ?%elem_of_nil.
  - by intros e _ _ wp base found ?%elem_of_nil.
  - intros f1 Hx Hfr. split; [by intros e wp base found ?%elem_of_nil|].
    intros n evs f' r Hn Hxt Hs wp base found [Heq|Hev]%elem_of_cons; [done|].
    destruct (staged_elem _ _ _ _ _ _ _ _ _ Hs Hev) as [Hns|(f3 & f4 & _ & _ & Heq & _ & Hr)].
    + by apply namespace_call_elem in Hns as [_ ?].
    + simplify_eq. by destruct (WheelFile_write_files _ _ _ _).2.
Qed.

(** X2. The clean-up does not change the outcome: once the archive writer
    has been called, [_create_wheel_file] returns the archive path when the
    writer returned and raises the writer's exception when it raised; [run]
    returns [None] or raises the same exception. *)
Theorem X2_writer_outcome_is_final self w wp base found :
  (EvWriteFiles wp base found ∈ since w (_create_wheel_file E C self w).1 →
   (_create_wheel_file E C self w).2
   = match (WheelFile_write_files C wp base found).2 with
     | Return _ => Return (wheel_path_of C self)
     | Raise e => Raise e
     end) ∧
  (EvWriteFiles wp base found ∈ since w (run E C self w).1 →
   (run E C self w).2
   = match (WheelFile_write_files C wp base found).2 with
     | Return _ => Return None
     | Raise e => Raise e
     end).
Proof.
  split.
  - intros Hin. by apply (spec_elim _ _ _ (writer_decides_spec self w)).
  - revert wp base found.
    apply (spec_elim (run E C self) w (λ new _ r,
      ∀ wp base found, EvWriteFiles wp base found ∈ new →
        r = match (WheelFile_write_files C wp base found).2 with
            | Return _ => Return None
            | Raise e => Raise e
            end)).
    apply run_rule.
    + intros evs w1 e Hevs wp base found Hin.
      by destruct (preparation_no_write_files _ _ _ _ Hevs Hin).
    + intros evs w1 self' Hevs _ _ _.
      eapply spec_mono; [|apply writer_decides_spec].
      intros new w2 r H wp base found [Hin|Hin]%elem_of_app.
      { by destruct (preparation_no_write_files _ _ _ _ Hevs Hin). }
      rewrite (H _ _ _ Hin). by destruct (WheelFile_write_files _ _ _ _).2.
Qed.

(** X3. The preparation fails fast, whether the dist-info directory was
    supplied or is made by [dist_info]: when [_ensure_dist_info] raises
    (a supplied directory fails a check, or [dist_info] raises), [run]
    raises the same exception in the same world; when it returns, the
    command it returns has a dist-info directory, the one supplied or the
    one [dist_info] returned, and when [write_wheelfile] or [build_ext]
    then raises, [run] raises the same exception, no later step is taken,
    and the file system is as the failing command left it.  When
    [dist_info] raises, so does [_ensure_dist_info], its call noted. *)
Theorem X3_preparation_fails_fast self w :
  (∀ w1 e, _ensure_dist_info C self w = (w1, Raise e) → run E C self w = (w1, Raise e)) ∧
  (∀ w1 self', _ensure_dist_info C self w = (w1, Return self') →
     ∃ d, dist_info_dir self' = Some d ∧ dist_info_source C self w d ∧
       (∀ f e, bdist_wheel_write_wheelfile C d (fs w1) = (f, Raise e) →
          run E C self w = (World f (history w1 ++ [EvWriteWheelfile d]), Raise e)) ∧
       (∀ f f' e, bdist_wheel_write_wheelfile C d (fs w1) = (f, Return tt) →
          build_ext_run C true f = (f', Raise e) →
          run E C self w
          = (World f' (history w1 ++ [EvWriteWheelfile d; EvBuildExt true]), Raise e))) ∧
  (∀ f e, dist_info_dir self = None →
     dist_info_run C (dist_dir self) (fs w) = (f, Raise e) →
     _ensure_dist_info C self w
     = (World f (history w ++ [EvDistInfo (dist_dir self)]), Raise e)) ∧
  (∀ f d, dist_info_dir self = None →
     dist_info_run C (dist_dir self) (fs w) = (f, Return d) →
     _ensure_dist_info C self w
     = (World f (history w ++ [EvDistInfo (dist_dir self)]), Return (set_dist_info_dir self d))).
Proof.
  split; [|split; [|split]].
  - intros w1 e He. unfold run, bind. by rewrite He.
  - intros w1 self' He.
    assert (Hd : ∃ d, dist_info_dir self' = Some d ∧ dist_info_source C self w d).
    { unfold _ensure_dist_info in He. destruct (dist_info_dir self) as [d|] eqn:Hd.
      - exists d. destruct (negb _); [done|].
        unfold bind, Os.Path_exists, look, ret, raise in He.
        destruct (FS.exists_ _ _); simplify_eq. split; [done|by left].
      - unfold bind, call, ret in He.
        destruct (dist_info_run C (dist_dir self) (fs w)) as [f1 [d|e]] eqn:Hrun;
          simplify_eq.
        exists d. split; [done|]. right. by rewrite Hrun. }
    destruct Hd as (d & Hd & Hsrc). exists d. split; [done|]. split; [done|]. split.
    + intros f e Hw. unfold run, bind. rewrite He, Hd. unfold call. by rewrite Hw.
    + intros f f' e Hw Hb. unfold run, bind. rewrite He, Hd. unfold call. rewrite Hw. simpl.
      rewrite Hb. by rewrite <- app_assoc.
  - intros f e Hd Hrun. unfold _ensure_dist_info. rewrite Hd.
    unfold bind, call. by rewrite Hrun.
  - intros f d Hd Hrun. unfold _ensure_dist_info. rewrite Hd.
    unfold bind, call, ret. by rewrite Hrun.
Qed.

(** X4. A directory at the archive path stops [_create_wheel_file] at
    once: it raises [IsADirectoryError], and the world is as it was (no
    staging directory is made, no collaborator is called). *)
Theorem X4_directory_at_archive_path self w :
  FS.is_dir (fs w) (wheel_path_of C self) = true →
  _create_wheel_file E C self w = (w, Raise IsADirectoryError).
Proof.
  intros Hd%is_dir_stat. unfold _create_wheel_file, bind at 1.
  unfold bind at 1. unfold Os.Path_exists, look at 1. unfold FS.exists_. rewrite Hd.
  unfold Os.Path_unlink, bind, look, raise. by rewrite Hd.
Qed.

End Further.

Section FurtherPaths.

Variable E : Env.
Variable C : Collaborators.

Implicit Types (self : editable_wheel) (w : world).

Lemma endswith_refl (s : string) : Str.endswith s s = true.
Proof. destruct s; simpl; by rewrite ?Ascii.eqb_refl, ?String.eqb_refl. Qed.

Lemma endswith_app_r (a b s : string) :
  Str.endswith b s = true → Str.endswith (a +:+ b) s = true.
Proof.
  intros H. induction a as [|c a IH]; [done|].
  simpl. rewrite IH. apply orb_true_r.
Qed.

Lemma startswith_app (a b : string) : Str.startswith (a +:+ b) a = true.
Proof. induction a as [|c a IH]; [done|]. simpl. by rewrite Ascii.eqb_refl. Qed.

Lemma os_path_join_endswith (a b s : string) :
  Str.endswith b s = true → Str.endswith (os_path_join a b) s = true.
Proof.
  intros H. unfold os_path_join.
  destruct (Str.startswith b "/"); [done|].
  destruct (_ || _); by repeat apply endswith_app_r.
Qed.

Lemma os_path_join_relative (a b : string) :
  Str.startswith b "/" = false → Str.startswith (os_path_join a b) a = true.
Proof.
  intros H. unfold os_path_join. rewrite H.
  destruct (_ || _); apply startswith_app.
Qed.

Lemma staging_dirs_namespace_call self tmp : staging_dirs (namespace_call E C self tmp) = [].
Proof. unfold namespace_call. by destruct (declares_namespaces _). Qed.

Lemma staged_staging_dirs self tmp f1 evs f' r :
  staged E C self tmp f1 evs f' r → staging_dirs evs = [].
Proof.
  intros Hs. destruct Hs; try done; try apply staging_dirs_namespace_call.
  unfold staging_dirs. rewrite omap_app. fold (staging_dirs (namespace_call E C self tmp)).
  by rewrite staging_dirs_namespace_call.
Qed.

(** X5. A call of [_create_wheel_file] makes at most one staging
    directory; it is the entry of the temporary directory whose name is
    [tmp], a candidate name and the archive name, so it ends with the
    archive name; the namespace installer and the archive writer are given
    this very directory. *)
Theorem X5_one_staging_directory self w :
  (length (staging_dirs (since w (_create_wheel_file E C self w).1)) ≤ 1)%nat ∧
  (∀ tmp, EvMkdtemp tmp ∈ since w (_create_wheel_file E C self w).1 →
     staging_dirs (since w (_create_wheel_file E C self w).1) = [tmp] ∧
     Str.endswith tmp (archive_name C) = true ∧
     ∃ n, n ∈ candidate_names E ∧
          tmp = os_path_join (gettempdir E) ("tmp" +:+ n +:+ archive_name C)) ∧
  (∀ wp base found, EvWriteFiles wp base found ∈ since w (_create_wheel_file E C self w).1 →
     staging_dirs (since w (_create_wheel_file E C self w).1) = [base]) ∧
  (∀ nsp t r, EvInstallNamespaces nsp t r ∈ since w (_create_wheel_file E C self w).1 →
     ∃ tmp, staging_dirs (since w (_create_wheel_file E C self w).1) = [tmp] ∧
            t = os_path_join tmp (dist_info_name C)).
Proof.
  apply (spec_elim (_create_wheel_file E C self) w (λ new _ _,
    (length (staging_dirs new) ≤ 1)%nat ∧
    (∀ tmp, EvMkdtemp tmp ∈ new →
       staging_dirs new = [tmp] ∧ Str.endswith tmp (archive_name C) = true ∧
       ∃ n, n ∈ candidate_names E ∧
            tmp = os_path_join (gettempdir E) ("tmp" +:+ n +:+ archive_name C)) ∧
    (∀ wp base found, EvWriteFiles wp base found ∈ new → staging_dirs new = [base]) ∧
    (∀ nsp t r, EvInstallNamespaces nsp t r ∈ new →
       ∃ tmp, staging_dirs new = [tmp] ∧ t = os_path_join tmp (dist_info_name C)))).
  assert (Hnil : (length (staging_dirs []) ≤ 1)%nat ∧
    (∀ tmp, EvMkdtemp tmp ∈ [] →
       staging_dirs [] = [tmp] ∧ Str.endswith tmp (archive_name C) = true ∧
       ∃ n, n ∈ candidate_names E ∧
            tmp = os_path_join (gettempdir E) ("tmp" +:+ n +:+ archive_name C)) ∧
    (∀ wp base found, EvWriteFiles wp base found ∈ [] → staging_dirs [] = [base]) ∧
    (∀ nsp t r, EvInstallNamespaces nsp t r ∈ [] →
       ∃ tmp, staging_dirs [] = [tmp] ∧ t = os_path_join tmp (dist_info_name C))).
  { simpl. split; [lia|]. repeat split; by intros; exfalso; eapply not_elem_of_nil. }
  apply create_wheel_file_rule; [done..|].
  intros f1 Hx Hfr. split; [done|].
  intros n evs f' r Hn Hxt Hs.
  assert (Hdirs : staging_dirs (EvMkdtemp (staging_dir E C n) :: evs) = [staging_dir E C n]).
  { change (staging_dirs (EvMkdtemp (staging_dir E C n) :: evs))
      with (staging_dir E C n :: staging_dirs evs).
    by rewrite (staged_staging_dirs _ _ _ _ _ _ Hs). }
  rewrite Hdirs. split; [done|]. split; [|split].
  - intros tmp [Heq|Hev]%elem_of_cons.
    + simplify_eq. split; [done|]. split; [|by exists n].
      apply os_path_join_endswith. do 2 apply endswith_app_r. apply endswith_refl.
    + destruct (staged_elem _ _ _ _ _ _ _ _ _ Hs Hev) as [Hns|(f3 & f4 & _ & _ & Heq & _)];
        [|done].
      by apply namespace_call_elem in Hns as [_ ?].
  - intros wp base found [Heq|Hev]%elem_of_cons; [done|].
    destruct (staged_elem _ _ _ _ _ _ _ _ _ Hs Hev) as [Hns|(f3 & f4 & _ & _ & Heq & _)].
    + by apply namespace_call_elem in Hns as [_ ?].
    + by simplify_eq.
  - intros nsp t r0 [Heq|Hev]%elem_of_cons; [done|].
    destruct (staged_elem _ _ _ _ _ _ _ _ _ Hs Hev) as [Hns|(f3 & f4 & _ & _ & Heq & _)];
      [|done].
    apply namespace_call_elem in Hns as [_ Heq]. simplify_eq. by eexists.
Qed.


Lemma archive_name_startswith :
  Str.startswith (archive_name C) "/" = Str.startswith (dist_info_name C) "/".
Proof. unfold archive_name. by destruct (dist_info_name C). Qed.

Lemma parse_one_absolute (a : string) :
  Str.startswith a "/" = true → is_absolute (parse_one a) = true.
Proof.
  intros H. unfold parse_one, splitroot. rewrite H. by destruct (_ =? 2)%nat.
Qed.

Lemma parse_parts_app_absolute (l : list string) (a : string) :
  Str.startswith a "/" = true → parse_parts (l ++ [a]) = parse_one a.
Proof.
  intros H. induction l as [|x l IH]; simpl.
  - by rewrite app_nil_r.
  - by rewrite IH, parse_one_absolute.
Qed.

Lemma parse_parts_app_relative (l : list string) (a : string) :
  Str.startswith a "/" = false → parse_parts (l ++ [a]) = parse_parts l ++ parse_one a.
Proof.
  intros H. pose proof (no_sep_relative _ (parse_one_relative_no_sep _ H)) as Hrel.
  induction l as [|x l IH]; simpl.
  - by rewrite app_nil_r.
  - rewrite IH. destruct (parse_parts l) as [|h t] eqn:Hl; simpl.
    + by rewrite Hrel, app_nil_r.
    + destruct (is_root h); [done|]. by rewrite <- app_assoc.
Qed.

(** X7. The archive path and the output directory: when the name of the
    distribution does not start with a slash, the archive path is the
    output directory followed by the parts of the archive name, so it lies
    in the output directory; when it does, the output directory is dropped
    and the archive path is the archive name alone. *)
Theorem X7_archive_path_in_output_directory self (args : list string) :
  dist_dir self = Path args →
  (Str.startswith (dist_info_name C) "/" = false →
     wheel_path_of C self = dist_dir self ++ parse_one (archive_name C) ∧
     dist_dir self `prefix_of` wheel_path_of C self) ∧
  (Str.startswith (dist_info_name C) "/" = true →
     wheel_path_of C self = Path [archive_name C] ∧
     is_absolute (wheel_path_of C self) = true).
Proof.
  intros Hd. unfold wheel_path_of, Path_of. rewrite Hd. split; intros Hs.
  - rewrite <- archive_name_startswith in Hs.
    rewrite (parse_parts_app_relative _ _ Hs).
    unfold Path. rewrite parse_parts_canonical_id by apply parse_parts_canonical.
    split; [done|]. by apply prefix_app_r.
  - rewrite <- archive_name_startswith in Hs.
    rewrite (parse_parts_app_absolute _ _ Hs), Path_single.
    split; [done|]. by apply parse_one_absolute.
Qed.

(** X8. The installation target of the namespace installer: when the
    editable name does not start with a slash, the target starts with the
    installation directory and ends with the name; when it does, the
    target is the name alone, outside the installation directory. *)
Theorem X8_installation_target (dist : Distribution) (dir nm root : string) :
  (Str.startswith nm "/" = false →
     Str.startswith (_get_target (_NamespaceInstaller__init__ dist dir nm root)) dir = true ∧
     Str.endswith (_get_target (_NamespaceInstaller__init__ dist dir nm root)) nm = true) ∧
  (Str.startswith nm "/" = true →
     _get_target (_NamespaceInstaller__init__ dist dir nm root) = nm).
Proof.
  unfold _get_target, _NamespaceInstaller__init__.
  cbn [ni_installation_dir ni_editable_name]. split; intros H.
  - split; [by apply os_path_join_relative|apply os_path_join_endswith, endswith_refl].
  - unfold os_path_join. by rewrite H.
Qed.

(** X9. Only the entry of the empty key counts: two commands with the
    same project directory whose package-directory mappings differ in one
    other key have the same target. *)
Theorem X9_target_reads_root_key_only self self' (pd : gmap string string) (k v : string) :
  k ≠ "" → project_dir self' = project_dir self →
  package_dir (distribution self) = Some pd →
  package_dir (distribution self') = Some (<[k:=v]> pd) →
  target E self' = target E self.
Proof.
  intros Hk Hp Hpd Hpd'. unfold target. rewrite Hpd, Hpd', Hp. simpl.
  by rewrite lookup_insert_ne.
Qed.

End FurtherPaths.


(** ** The copy of the dist-info directory *)

Section FurtherCopy.

Variable E : Env.
Variable C : Collaborators.

Implicit Types (self : editable_wheel) (w : world) (f : gmap path node).

Lemma copied_entries_lookup f (src dst rel : path) (n : node) :
  rel ≠ [] → f !! (src ++ rel) = Some n →
  FS.copied_entries src dst f !! (dst ++ rel) = Some n.
Proof.
  intros Hrel Hn. unfold FS.copied_entries.
  apply elem_of_list_to_map_1'.
  - intros y Hy. apply list_elem_of_omap in Hy as ([k v] & Hkv & Hre).
    unfold FS.relocate in Hre. simpl in Hre. case_bool_decide as Hpre; [|done].
    destruct Hpre as [rel' ->]. rewrite drop_app_length in Hre.
    destruct rel' as [|c rel']; [done|]. simplify_eq.
    apply elem_of_map_to_list in Hkv. congruence.
  - apply list_elem_of_omap. exists (src ++ rel, n). split; [by apply elem_of_map_to_list|].
    unfold FS.relocate. simpl. rewrite bool_decide_eq_true_2 by by apply prefix_app_r.
    rewrite drop_app_length. by destruct rel.
Qed.

Lemma namespace_call_no_write_files self tmp :
  existsb is_write_files (namespace_call E C self tmp) = false.
Proof. unfold namespace_call. by destruct (declares_namespaces _). Qed.

Lemma copytree_exact_rule (src dst : path) w Q :
  dst ≠ [] → FS.exists_ (fs w) (removelast dst) = true →
  (∀ e, Q [] w (Raise e)) →
  (FS.exists_ (fs w) dst = false →
   Q [] (World (FS.copied_entries src dst (fs w) ∪ <[dst:=Dir]> (fs w)) (history w))
     (Return tt)) →
  spec (Os.copytree src dst) w Q.
Proof.
  intros Hd Hx Hr Hk.
  unfold Os.copytree. apply spec_bind, spec_look.
  destruct (FS.stat (fs w) src) as [[c|]|]; try (by apply spec_raise).
  apply spec_bind, spec_look, spec_bind.
  eapply spec_ext; [by apply makedirs_head_exists|].
  apply mkdir_rule; [done|]. intros Hp Hex.
  apply spec_change. simpl. by apply Hk.
Qed.

(** The body of the [with] block, when it reaches the archive writer: the
    dist-info directory was copied, the namespace installer returned, and
    the redirect file was written. *)
Lemma staging_exact_rule self (d tmp : string) f1 h Q :
  dist_info_dir self = Some d →
  FS.stat f1 (parent (Path [tmp])) = Some Dir →
  FS.exists_ f1 (Path [tmp]) = false →
  (∀ evs w' e, existsb is_write_files evs = false → Q evs w' (Raise e)) →
  (∀ f4,
     FS.exists_ (<[Path [tmp]:=Dir]> f1) (Path [tmp; name (Path [d])]) = false →
     namespace_step E C self tmp (with_dist_info d tmp f1) = (f4, Return tt) →
     Q (namespace_call E C self tmp ++
          [EvWriteFiles (wheel_path_of C self) tmp (with_redirect E C self tmp f4)])
       (World (WheelFile_write_files C (wheel_path_of C self) tmp
                 (with_redirect E C self tmp f4)).1
              (h ++ namespace_call E C self tmp ++
                 [EvWriteFiles (wheel_path_of C self) tmp (with_redirect E C self tmp f4)]))
       (WheelFile_write_files C (wheel_path_of C self) tmp
          (with_redirect E C self tmp f4)).2) →
  spec (match dist_info_dir self with
        | None => raise TypeError
        | Some d =>
            Os.copytree (Path [d]) (Path [tmp; name (Path [d])]) ;;
            _install_namespaces E C self tmp (dist_info_name C) ;;
            _populate_wheel E self (dist_info_name C) tmp ;;
            call (EvWriteFiles (wheel_path_of C self) tmp)
                 (WheelFile_write_files C (wheel_path_of C self) tmp)
        end) (World (<[Path [tmp]:=Dir]> f1) h) Q.
Proof.
  intros Hd Hpar Hx Hr Hk. rewrite Hd.
  pose proof (exists_false_not_anchor _ _ Hx) as Hanchor.
  assert (Hne : Path [tmp] ≠ []) by (by intros Heq; rewrite Heq in Hanchor).
  apply spec_bind, copytree_exact_rule; simpl.
  { destruct (tmp_dist_info_cases tmp d) as [->| ->]; [done|]. by destruct (Path [tmp]). }
  { destruct (tmp_dist_info_cases tmp d) as [->| ->].
    - rewrite <- parent_removelast by done. unfold FS.exists_.
      rewrite stat_insert_ne, Hpar; [done|].
      rewrite parent_removelast by done. intros Heq. by apply (removelast_ne (Path [tmp])).
    - rewrite removelast_last. unfold FS.exists_, FS.stat.
      by rewrite Hanchor, lookup_insert_eq. }
  { intros e. by apply Hr. }
  intros Hdst. apply spec_bind, install_namespaces_rule. simpl.
  fold (with_dist_info d tmp f1).
  destruct (namespace_step E C self tmp (with_dist_info d tmp f1)) as [f4 [[]|e]] eqn:Hns;
    simpl; [|apply Hr, namespace_call_no_write_files].
  apply spec_bind. unfold _populate_wheel. apply write_text_rule; simpl.
  { intros e. apply Hr. rewrite app_nil_r. apply namespace_call_no_write_files. }
  { intros e _. apply Hr. rewrite app_nil_r. apply namespace_call_no_write_files. }
  intros _. apply spec_call. simpl. rewrite ?app_nil_r, <- ?app_assoc.
  by apply Hk.
Qed.

Lemma create_wheel_file_exact_rule self (d : string) w Q :
  dist_info_dir self = Some d →
  (∀ evs w' e, existsb is_write_files evs = false → Q evs w' (Raise e)) →
  (∀ f1 n f4,
     (∀ q, q ≠ wheel_path_of C self → f1 !! q = fs w !! q) →
     n ∈ candidate_names E →
     FS.exists_ f1 (Path [staging_dir E C n]) = false →
     FS.exists_ (<[Path [staging_dir E C n]:=Dir]> f1)
                (Path [staging_dir E C n; name (Path [d])]) = false →
     namespace_step E C self (staging_dir E C n) (with_dist_info d (staging_dir E C n) f1)
     = (f4, Return tt) →
     ∀ w',
     Q (EvMkdtemp (staging_dir E C n) :: namespace_call E C self (staging_dir E C n) ++
          [EvWriteFiles (wheel_path_of C self) (staging_dir E C n)
             (with_redirect E C self (staging_dir E C n) f4)])
       w'
       match (WheelFile_write_files C (wheel_path_of C self) (staging_dir E C n)
                (with_redirect E C self (staging_dir E C n) f4)).2 with
       | Return _ => Return (wheel_path_of C self)
       | Raise e => Raise e
       end) →
  spec (_create_wheel_file E C self) w Q.
Proof.
  intros Hd Hr Hk.
  assert (Hrest : ∀ f1 h,
    (∀ q, q ≠ wheel_path_of C self → f1 !! q = fs w !! q) →
    spec (Os.with_TemporaryDirectory (gettempdir E) (candidate_names E) (archive_name C) (λ tmp,
            match dist_info_dir self with
            | None => raise TypeError
            | Some d =>
                Os.copytree (Path [d]) (Path [tmp; name (Path [d])]) ;;
                _install_namespaces E C self tmp (dist_info_name C) ;;
                _populate_wheel E self (dist_info_name C) tmp ;;
                call (EvWriteFiles (wheel_path_of C self) tmp)
                     (WheelFile_write_files C (wheel_path_of C self) tmp)
            end) ;; ret (wheel_path_of C self)) (World f1 h) Q).
  { intros f1 h Hfr.
    apply spec_bind, with_TemporaryDirectory_rule; [by intros e; apply Hr|].
    intros n Hn tmp Hpar Hxt. simpl in *.
    apply (staging_exact_rule self d); [done..|by intros evs w' e He; apply Hr|].
    intros f4 Hdst Hns. subst tmp. fold (staging_dir E C n) in *. simpl.
    pose proof (Hk f1 n f4 Hfr Hn Hxt Hdst Hns) as Hk'.
    destruct (WheelFile_write_files C (wheel_path_of C self) (staging_dir E C n)
                (with_redirect E C self (staging_dir E C n) f4)) as [fw [[]|e]];
      simpl in *; [|apply Hk'].
    apply spec_ret. rewrite app_nil_r. apply Hk'. }
  unfold _create_wheel_file. apply spec_bind, unlink_phase_rule.
  - intros _. by apply Hr.
  - intros c e _ _. by apply Hr.
  - intros Hx. simpl. destruct w as [f h]. by apply Hrest.
  - intros c Hc _. simpl. apply Hrest. intros q Hq. by apply lookup_delete_ne.
Qed.

(** X11. The archive writer finds the dist-info directory in the staging
    directory: an entry below the supplied directory, other than the
    archive path itself, is found under the name of the directory in the
    staging directory, with the node it had when the build began, as long
    as the namespace installer leaves that entry alone. *)
Theorem X11_staging_holds_dist_info self (d : string) w wp base found (rel : path) (n : node) :
  dist_info_dir self = Some d → Str.has_sep (dist_info_name C) = false →
  EvWriteFiles wp base found ∈ since w (_create_wheel_file E C self w).1 →
  rel ≠ [] → fs w !! (Path [d] ++ rel) = Some n →
  Path [d] ++ rel ≠ wheel_path_of C self →
  (∀ f, (namespace_step E C self base f).1 !! (Path [base; name (Path [d])] ++ rel)
        = f !! (Path [base; name (Path [d])] ++ rel)) →
  found !! (Path [base; name (Path [d])] ++ rel) = Some n.
Proof.
  intros Hd Hsep Hin Hrel Hn Hnw.
  revert wp base found Hin.
  apply (spec_elim (_create_wheel_file E C self) w (λ new _ _,
    ∀ wp base found, EvWriteFiles wp base found ∈ new →
      (∀ f, (namespace_step E C self base f).1 !! (Path [base; name (Path [d])] ++ rel)
            = f !! (Path [base; name (Path [d])] ++ rel)) →
      found !! (Path [base; name (Path [d])] ++ rel) = Some n)).
  apply (create_wheel_file_exact_rule self d); [done| |].
  { intros evs w' e Hno wp base found Hin _. exfalso.
    apply list_elem_of_In in Hin.
    assert (Hex : existsb is_write_files evs = true) by (apply existsb_exists; eauto).
    congruence. }
  intros f1 m f4 Hfr Hm Hxt Hdst Hns w' wp base found [Heq|Hin]%elem_of_cons Hkeep; [done|].
  apply elem_of_app in Hin as [Hin|Hin].
  { by apply namespace_call_elem in Hin as [_ ?]. }
  apply list_elem_of_singleton in Hin. simplify_eq.
  set (tmp := staging_dir E C m) in *. set (dst := Path [tmp; name (Path [d])]) in *.
  assert (Hred : Path [tmp; pth_name (dist_info_name C)] = Path [tmp] ++ [pth_name (dist_info_name C)]).
  { apply Path_child; [by apply pth_name_no_sep|apply pth_name_proper..]. }
  assert (Hcase : dst = Path [tmp] ++ [name (Path [d])]).
  { destruct (tmp_dist_info_cases tmp d) as [Hc|Hc]; [|done].
    unfold dst in Hdst. rewrite Hc in Hdst. unfold FS.exists_, FS.stat in Hdst.
    rewrite (exists_false_not_anchor _ _ Hxt), lookup_insert_eq in Hdst. done. }
  unfold with_redirect. rewrite lookup_insert_ne.
  2: { rewrite Hred, Hcase, <- app_assoc. intros Heq%app_inv_head.
       simpl in Heq. simplify_eq. }
  specialize (Hkeep (with_dist_info d tmp f1)). rewrite Hns in Hkeep. simpl in Hkeep.
  rewrite Hkeep. unfold with_dist_info. fold dst.
  erewrite lookup_union_Some_l; [done|].
  apply copied_entries_lookup; [done|].
  rewrite lookup_insert_ne, Hfr; [done|done|].
  intros Heq. apply exists_false_lookup in Hxt. rewrite Heq, Hfr, Hn in Hxt; done.
Qed.

End FurtherCopy.

(** ** What [_create_wheel_file] changes on disk *)

Section FurtherFrame.

Variable E : Env.
Variable C : Collaborators.

Implicit Types (self : editable_wheel) (w : world) (f : gmap path node).

(** X12. The earlier archive goes first.  When a file is at the archive
    path and the operating system refuses to remove it,
    [_create_wheel_file] raises that error at once and the world is as it
    was: the earlier archive stays, no staging directory is made and no
    collaborator is called.  When the file is removed and the call then
    ends without having made any call, which is the case when no staging
    directory can be made, it raises, the file is gone, and every other
    path is as it was. *)
Theorem X12_earlier_archive_removed_first self w :
  FS.is_file (fs w) (wheel_path_of C self) = true →
  (∀ e, unlink_error E (wheel_path_of C self) = Some e →
     _create_wheel_file E C self w = (w, Raise e)) ∧
  (unlink_error E (wheel_path_of C self) = None →
   since w (_create_wheel_file E C self w).1 = [] →
   (∃ e, (_create_wheel_file E C self w).2 = Raise e) ∧
   FS.exists_ (fs (_create_wheel_file E C self w).1) (wheel_path_of C self) = false ∧
   (∀ q, q ≠ wheel_path_of C self →
      FS.stat (fs (_create_wheel_file E C self w).1) q = FS.stat (fs w) q)).
Proof.
  intros Hf. split.
  - intros e He. unfold _create_wheel_file, bind at 1.
    unfold bind at 1. unfold Os.Path_exists, look at 1.
    unfold FS.is_file, FS.exists_ in *.
    destruct (FS.stat (fs w) (wheel_path_of C self)) as [[c|]|] eqn:Hst; try done.
    unfold Os.Path_unlink, bind, look, raise. by rewrite Hst, He.
  - intros He.
    apply (spec_elim (_create_wheel_file E C self) w (λ new w' r,
      new = [] →
      (∃ e, r = Raise e) ∧ FS.exists_ (fs w') (wheel_path_of C self) = false ∧
      (∀ q, q ≠ wheel_path_of C self → FS.stat (fs w') q = FS.stat (fs w) q))).
    apply create_wheel_file_rule.
    + intros Hd. unfold FS.is_file, FS.is_dir in *. by destruct (FS.stat _ _) as [[]|].
    + intros e _ He'. congruence.
    + intros f1 Hx Hfr. split; [by intros e _; split; [eexists|]|].
      by intros n evs f' r _ _ _ ?.
Qed.

(** X13. Apart from the archive path and the staging directories, the
    disk is changed by the collaborators only: a path that is neither the
    archive path nor in a staging directory that [tempfile] may choose,
    and that the namespace installer and the archive writer leave alone,
    is after [_create_wheel_file] as it was before, whether the call
    returned or raised.  In particular the dist-info directory is copied,
    not moved. *)
Theorem X13_disk_outside_staging_unchanged self w (q : path) :
  q ≠ wheel_path_of C self →
  (∀ n, n ∈ candidate_names E → ¬ Path [staging_dir E C n] `prefix_of` q) →
  (∀ n f, n ∈ candidate_names E →
     FS.stat (namespace_step E C self (staging_dir E C n) f).1 q = FS.stat f q) →
  (∀ n f, n ∈ candidate_names E →
     FS.stat (WheelFile_write_files C (wheel_path_of C self) (staging_dir E C n) f).1 q
     = FS.stat f q) →
  FS.stat (fs (_create_wheel_file E C self w).1) q = FS.stat (fs w) q.
Proof.
  intros Hq Hout Hns Hwf.
  apply (spec_elim (_create_wheel_file E C self) w (λ _ w' _,
    FS.stat (fs w') q = FS.stat (fs w) q)).
  apply create_wheel_file_rule; [done..|].
  intros f1 Hx Hfr. split; [by intros e; apply Hfr|].
  intros n evs f' r Hn Hxt Hs. simpl.
  rewrite stat_remove_tree_out by by apply Hout.
  rewrite <- (Hfr q Hq).
  destruct Hs as [f3 e Ho|f3 f4 e Ho Hst|f3 f4 f5 e Ho Hst Ho5|f3 f4 Ho Hst].
  - by apply Ho, Hout.
  - rewrite <- (Ho q (Hout n Hn)), <- (Hns n f3 Hn). by rewrite Hst.
  - rewrite (Ho5 q (Hout n Hn)), <- (Ho q (Hout n Hn)), <- (Hns n f3 Hn). by rewrite Hst.
  - rewrite (Hwf n _ Hn). unfold with_redirect. rewrite stat_insert_ne.
    + rewrite <- (Ho q (Hout n Hn)), <- (Hns n f3 Hn). by rewrite Hst.
    + intros Heq. apply (Hout n Hn). rewrite <- Heq.
      apply Path_pair_prefix, pth_name_relative.
Qed.

End FurtherFrame.

(** * The further properties on the concrete setting *)

Section DemoFurtherFacts.

Import Demo DemoFurther.

Lemma result_eq {A B : Type} (x : A * B) (b : B) : x.2 = b → x = (x.1, b).
Proof. destruct x. simpl. by intros ->. Qed.

Lemma staging_dirs_elem (tmp : string) (l : list event) :
  EvMkdtemp tmp ∈ l → tmp ∈ staging_dirs l.
Proof. intros H. apply list_elem_of_omap. by exists (EvMkdtemp tmp). Qed.

(** The build of [foo] reaches the archive writer, with the staging
    directory [tmp0]. *)
Lemma foo_writer_called :
  ∃ found,
    EvWriteFiles wheel0 tmp0 found ∈ since w1 (_create_wheel_file E0 C0 self1 w1).1.
Proof.
  pose proof (spec_elim _ _ _ (returns_spec E0 C0 self1 w1)) as [Hev Hret].
  destruct (Hret wheel0) as [_ (base & found & Hin)]; [vm_compute; reflexivity|].
  destruct (Hev _ _ _ Hin) as [_ Hmk%staging_dirs_elem].
  assert (Hdirs : staging_dirs (since w1 (_create_wheel_file E0 C0 self1 w1).1) = [tmp0])
    by (vm_compute; reflexivity).
  rewrite Hdirs in Hmk. apply list_elem_of_singleton in Hmk. subst base. by exists found.
Qed.

Lemma foo_installer_keeps (k : path) (f : gmap path node) :
  k ≠ Path [os_path_join tmp0 "foo-1.0" +:+ "-nspkg.pth"] →
  (namespace_step E0 C0 self1 tmp0 f).1 !! k = f !! k.
Proof. intros Hk. unfold namespace_step. simpl. by rewrite lookup_insert_ne. Qed.

End DemoFurtherFacts.

(** X1 on the project [foo]: [run] returns, and its calls are the whole
    sequence. *)
Lemma X1_calls_in_sequence_witness :
  ∃ d tmp found,
    since Demo.w0 (run Demo.E0 Demo.C0 (Demo.self_of Demo.dist0 None) Demo.w0).1
    = build_calls Demo.E0 Demo.C0 (Demo.self_of Demo.dist0 None) d tmp found.
Proof.
  destruct (X1_calls_in_sequence Demo.E0 Demo.C0 (Demo.self_of Demo.dist0 None) Demo.w0)
    as (d & tmp & found & _ & H).
  exists d, tmp, found. apply (H None). vm_compute. reflexivity.
Defined.

(** X2 on the project [foo]: the archive writer returned, and so does
    [_create_wheel_file], with the archive path. *)
Lemma X2_writer_outcome_is_final_witness :
  ∃ found,
    (_create_wheel_file Demo.E0 Demo.C0 Demo.self1 Demo.w1).2
    = match (WheelFile_write_files Demo.C0 Demo.wheel0 Demo.tmp0 found).2 with
      | Return _ => Return (wheel_path_of Demo.C0 Demo.self1)
      | Raise e => Raise e
      end.
Proof.
  destruct foo_writer_called as [found Hin]. exists found.
  by apply (X2_writer_outcome_is_final Demo.E0 Demo.C0 Demo.self1 Demo.w1).
Defined.

(** X3 on a machine without a compiler, the dist-info directory being made
    by [dist_info]: [run] raises what [build_ext] raised. *)
Lemma X3_preparation_fails_fast_witness :
  (run Demo.E0 DemoFurther.C_no_compiler (Demo.self_of Demo.dist0 None) Demo.w0).2
  = Raise (ExternalError "compiler not found").
Proof.
  destruct (X3_preparation_fails_fast Demo.E0 DemoFurther.C_no_compiler
              (Demo.self_of Demo.dist0 None) Demo.w0) as (_ & H & _).
  destruct (H (_ensure_dist_info DemoFurther.C_no_compiler
                 (Demo.self_of Demo.dist0 None) Demo.w0).1
              (Demo.self_of Demo.dist0 (Some DemoFurther.d1)))
    as (d & Hd & _ & _ & Hb).
  { apply outcome_eq. vm_compute. reflexivity. }
  simpl in Hd. injection Hd as <-.
  set (w1 := (_ensure_dist_info DemoFurther.C_no_compiler
                (Demo.self_of Demo.dist0 None) Demo.w0).1) in *.
  assert (H1 : (bdist_wheel_write_wheelfile DemoFurther.C_no_compiler DemoFurther.d1
                  (fs w1)).2 = Return tt) by reflexivity.
  assert (H2 : (build_ext_run DemoFurther.C_no_compiler true
                  (bdist_wheel_write_wheelfile DemoFurther.C_no_compiler DemoFurther.d1
                     (fs w1)).1).2 = Raise (ExternalError "compiler not found"))
    by reflexivity.
  rewrite (Hb _ _ _ (result_eq _ _ H1) (result_eq _ _ H2)).
  reflexivity.
Defined.

(** X4 on a disk with a directory at the archive path. *)
Lemma X4_directory_at_archive_path_witness :
  _create_wheel_file Demo.E0 Demo.C0 Demo.self1 DemoFurther.w_dir
  = (DemoFurther.w_dir, Raise IsADirectoryError).
Proof.
  apply X4_directory_at_archive_path. vm_compute. reflexivity.
Defined.

(** X5 on the project [foo]: the one staging directory, and its name. *)
Lemma X5_one_staging_directory_witness :
  staging_dirs (since Demo.w1 (_create_wheel_file Demo.E0 Demo.C0 Demo.self1 Demo.w1).1)
  = [Demo.tmp0] ∧
  Str.endswith Demo.tmp0 (archive_name Demo.C0) = true ∧
  ∃ n, n ∈ candidate_names Demo.E0 ∧
       Demo.tmp0 = os_path_join (gettempdir Demo.E0) ("tmp" +:+ n +:+ archive_name Demo.C0).
Proof.
  destruct (X5_one_staging_directory Demo.E0 Demo.C0 Demo.self1 Demo.w1) as (_ & H & _).
  apply H. apply mkdtemp_elem. vm_compute. reflexivity.
Defined.


(** X7 on the project [foo]: the archive is an entry of [dist]. *)
Lemma X7_archive_path_in_output_directory_witness :
  wheel_path_of Demo.C0 Demo.self1
  = dist_dir Demo.self1 ++ parse_one (archive_name Demo.C0) ∧
  dist_dir Demo.self1 `prefix_of` wheel_path_of Demo.C0 Demo.self1.
Proof.
  apply (proj1 (X7_archive_path_in_output_directory Demo.C0 Demo.self1 ["dist"]
                  ltac:(vm_compute; reflexivity))).
  reflexivity.
Defined.

(** X8 on the name of [foo]. *)
Lemma X8_installation_target_witness :
  Str.startswith
    (_get_target (_NamespaceInstaller__init__ Demo.dist_ns Demo.tmp0 "foo-1.0" "'/proj/src'"))
    Demo.tmp0 = true ∧
  Str.endswith
    (_get_target (_NamespaceInstaller__init__ Demo.dist_ns Demo.tmp0 "foo-1.0" "'/proj/src'"))
    "foo-1.0" = true.
Proof.
  apply (X8_installation_target Demo.dist_ns Demo.tmp0 "foo-1.0" "'/proj/src'").
  reflexivity.
Defined.

(** X9 on a mapping with a second entry: the target is that of the root
    entry alone. *)
Lemma X9_target_reads_root_key_only_witness :
  target Demo.E0 DemoFurther.self_two_entries = target Demo.E0 Demo.self1.
Proof.
  apply (X9_target_reads_root_key_only Demo.E0 Demo.self1 DemoFurther.self_two_entries
           {[ "" := "src" ]} "pkg" "lib/pkg").
  - discriminate.
  - reflexivity.
  - reflexivity.
  - reflexivity.
Defined.


(** X11 on the project [foo]: the archive writer finds [METADATA] in the
    copy of the dist-info directory. *)
Lemma X11_staging_holds_dist_info_witness :
  ∃ found,
    EvWriteFiles Demo.wheel0 Demo.tmp0 found
    ∈ since Demo.w1 (_create_wheel_file Demo.E0 Demo.C0 Demo.self1 Demo.w1).1 ∧
    found !! (Path [Demo.tmp0; name (Path [DemoFurther.d1])] ++ ["METADATA"])
    = Some (File "Name: foo").
Proof.
  destruct foo_writer_called as [found Hin]. exists found. split; [done|].
  apply (X11_staging_holds_dist_info Demo.E0 Demo.C0 Demo.self1 DemoFurther.d1 Demo.w1
           Demo.wheel0 Demo.tmp0 found ["METADATA"] (File "Name: foo")).
  - reflexivity.
  - reflexivity.
  - exact Hin.
  - discriminate.
  - vm_compute. reflexivity.
  - intros Heq. vm_compute in Heq. discriminate.
  - intros f. apply foo_installer_keeps. intros Heq. vm_compute in Heq. discriminate.
Defined.

(** X12 on an archive of an earlier build that cannot be removed: the
    build raises [PermissionError] and the world is as it was. *)
Lemma X12_earlier_archive_removed_first_witness :
  _create_wheel_file DemoFurther.E_protected Demo.C0 Demo.self1 Demo.w1
  = (Demo.w1, Raise PermissionError).
Proof.
  apply (X12_earlier_archive_removed_first DemoFurther.E_protected Demo.C0 Demo.self1 Demo.w1).
  - vm_compute. reflexivity.
  - vm_compute. reflexivity.
Defined.

(** X13 on the project [foo]: the supplied [METADATA] is where it was. *)
Lemma X13_disk_outside_staging_unchanged_witness :
  FS.stat (fs (_create_wheel_file Demo.E0 Demo.C0 Demo.self1 Demo.w1).1)
          ["dist"; "foo-1.0.dist-info"; "METADATA"]
  = FS.stat (fs Demo.w1) ["dist"; "foo-1.0.dist-info"; "METADATA"].
Proof.
  apply X13_disk_outside_staging_unchanged.
  - intros Heq. vm_compute in Heq. discriminate.
  - intros n ->%list_elem_of_singleton [k Hk]. vm_compute in Hk. discriminate.
  - intros n f ->%list_elem_of_singleton.
    unfold namespace_step. simpl. apply stat_insert_ne.
    intros Heq. vm_compute in Heq. discriminate.
  - intros n f ->%list_elem_of_singleton.
    simpl. apply stat_insert_ne. intros Heq. vm_compute in Heq. discriminate.
Defined.
